(** * dvidutils: the Draco bridge of [pydraco.hpp]

    A shallow embedding of [encode_faces_to_drc_bytes] and
    [decode_drc_bytes_to_faces], the two functions that turn flat numpy
    arrays (vertices, normals, faces) into a Draco mesh and back.

    Draco itself is an external library.  Its mesh container is modelled
    as a record (module [draco]); its algorithms (deduplication, encoder,
    decoder) are the fields of the record [draco.Library], over which the
    two functions are parametrised.  Every call made on a mesh or on the
    codec is written to a log, so that the order of the calls can be
    stated. *)

From Stdlib Require Import ZArith String Lia.
From Stdlib.Strings Require Import Byte.
From stdpp Require Import base list strings pretty.

Local Open Scope Z_scope.

(** ** C++ integers *)

(** [int] is 32 bits wide.  A conversion to [int] keeps the low 32 bits and
    reads them in two's complement. *)
Definition to_int (z : Z) : Z := (z + 2 ^ 31) mod 2 ^ 32 - 2 ^ 31.

(** [a + b] on [int].  C++ leaves the sum undefined when it leaves the range
    of [int]; the model gives the two's complement result there. *)
Definition int_add (a b : Z) : Z := to_int (a + b).

(** The values a [uint32_t] can hold. *)
Definition is_uint32 (z : Z) : Prop := 0 <= z < 2 ^ 32.

(** [std::endl] as it shows in a message. *)
Definition endl : string := String (Ascii.ascii_of_nat 10) EmptyString.

(** ** The Draco library

    Draco's headers are not part of the sources: the types below follow the
    calls the bridge makes and the data model of the spec.  Indices and
    counts that Draco keeps in 32 bits (points, faces, value slots) are
    natural numbers here and are not bounded; the index a face stores is an
    integer, as it comes from the faces array. *)

Module draco.

Inductive GeometryAttributeType :=
| POSITION | NORMAL | COLOR | TEX_COORD | GENERIC.

Inductive DataType :=
| DT_INVALID | DT_INT8 | DT_UINT8 | DT_INT16 | DT_UINT16 | DT_INT32
| DT_UINT32 | DT_INT64 | DT_UINT64 | DT_FLOAT32 | DT_FLOAT64 | DT_BOOL.

Inductive MeshAttributeElementType :=
| MESH_VERTEX_ATTRIBUTE | MESH_CORNER_ATTRIBUTE | MESH_FACE_ATTRIBUTE.

Inductive EncodedGeometryType :=
| INVALID_GEOMETRY_TYPE | POINT_CLOUD | TRIANGULAR_MESH.

Inductive Status :=
| OK
| DRACO_ERROR (error_msg : string).

(** [StatusOr<T>]: a status next to a value.  [value()] hands out the value
    and does not look at the status. *)
Record StatusOr (T : Type) := { status : Status; value : T }.
Arguments status {T} _.
Arguments value {T} _.

#[global] Instance GeometryAttributeType_eq_dec : EqDecision GeometryAttributeType.
Proof. solve_decision. Defined.

#[global] Instance EncodedGeometryType_eq_dec : EqDecision EncodedGeometryType.
Proof. solve_decision. Defined.

Definition DataTypeLength (dt : DataType) : Z :=
  match dt with
  | DT_INT8 | DT_UINT8 | DT_BOOL => 1
  | DT_INT16 | DT_UINT16 => 2
  | DT_INT32 | DT_UINT32 | DT_FLOAT32 => 4
  | DT_INT64 | DT_UINT64 | DT_FLOAT64 => 8
  | DT_INVALID => -1
  end.

(** A triangle: three point indices ([PointIndex] holds a [uint32_t]). *)
Definition Face : Type := Z * Z * Z.

(** [Encoder]: the only option the bridge sets is the pair of speeds. *)
Record Encoder := { speed_options : option (Z * Z) }.

Definition Encoder_new : Encoder := {| speed_options := None |}.

Definition SetSpeedOptions (encoding_speed decoding_speed : Z) (e : Encoder)
  : Encoder :=
  {| speed_options := Some (encoding_speed, decoding_speed) |}.

Section Containers.

Context {float : Type}.

(** Modelled from the spec: the declaration of Draco's [PointAttribute] is
    not part of the sources.  Following the data model, an attribute keeps
    its own compact value array and an index-mapping table from point
    index to value index, which is the identity until deduplication
    rewrites it.  A slot of the value array holds what
    [ConvertValue<float, 3>] reads from it: three floats, or nothing when
    the slot was never written or cannot be read as three floats. *)
Record PointAttribute := {
  attribute_type : GeometryAttributeType;
  num_components : Z;
  data_type : DataType;
  normalized : bool;
  byte_stride : Z;
  byte_offset : Z;
  att_buffer : list (option (float * float * float));
  indices_map : option (list nat)   (* [None]: identity mapping *)
}.

(** Modelled from the spec: the declaration of Draco's [Mesh] is not part
    of the sources.  A mesh has a point count, its attributes, the element
    type recorded for each attribute, and a face list. *)
Record Mesh := {
  num_points : nat;
  attributes : list PointAttribute;
  attribute_data : list MeshAttributeElementType;
  mesh_faces : list Face
}.

Definition PointAttribute_new : PointAttribute :=
  {| attribute_type := GENERIC; num_components := 0; data_type := DT_INVALID;
     normalized := false; byte_stride := 0; byte_offset := 0;
     att_buffer := []; indices_map := None |}.

Definition Init (t : GeometryAttributeType) (components : Z) (dt : DataType)
    (norm : bool) (stride offset : Z) (att : PointAttribute) : PointAttribute :=
  {| attribute_type := t; num_components := components; data_type := dt;
     normalized := norm; byte_stride := stride; byte_offset := offset;
     att_buffer := att_buffer att; indices_map := indices_map att |}.

Definition SetIdentityMapping (att : PointAttribute) : PointAttribute :=
  {| attribute_type := attribute_type att;
     num_components := num_components att; data_type := data_type att;
     normalized := normalized att; byte_stride := byte_stride att;
     byte_offset := byte_offset att;
     att_buffer := att_buffer att; indices_map := None |}.

(** [att.Reset(n)] followed by the choice of mapping, as [AddAttribute]
    does for the copy it stores. *)
Definition sized (identity_mapping : bool) (points n : nat)
    (att : PointAttribute) : PointAttribute :=
  {| attribute_type := attribute_type att;
     num_components := num_components att; data_type := data_type att;
     normalized := normalized att; byte_stride := byte_stride att;
     byte_offset := byte_offset att;
     att_buffer := replicate n None;
     indices_map := if identity_mapping then None
                    else Some (replicate points 0%nat) |}.

(** Writing slot [avi].  Outside the array C++ writes out of bounds; the
    model leaves the array as it is. *)
Definition set_value (avi : nat) (v : float * float * float)
    (att : PointAttribute) : PointAttribute :=
  {| attribute_type := attribute_type att;
     num_components := num_components att; data_type := data_type att;
     normalized := normalized att; byte_stride := byte_stride att;
     byte_offset := byte_offset att;
     att_buffer := <[avi := Some v]> (att_buffer att);
     indices_map := indices_map att |}.

(** [att.mapped_index(i)].  Outside the table the read is undefined in
    C++; the model has no value index there. *)
Definition mapped_index (att : PointAttribute) (i : nat) : option nat :=
  match indices_map att with
  | None => Some i
  | Some table => table !! i
  end.

(** [att.ConvertValue<float, 3>(avi, out)]: [Some] for [true] with the three
    floats written to [out], [None] for [false]. *)
Definition ConvertValue (att : PointAttribute) (avi : option nat)
  : option (float * float * float) :=
  i ← avi; mjoin (att_buffer att !! i).

Definition Mesh_new : Mesh :=
  {| num_points := 0; attributes := []; attribute_data := [];
     mesh_faces := [] |}.

Definition set_num_points (n : nat) (m : Mesh) : Mesh :=
  {| num_points := n; attributes := attributes m;
     attribute_data := attribute_data m; mesh_faces := mesh_faces m |}.

Definition SetNumFaces (n : nat) (m : Mesh) : Mesh :=
  {| num_points := num_points m; attributes := attributes m;
     attribute_data := attribute_data m;
     mesh_faces := resize n (0, 0, 0) (mesh_faces m) |}.

(** The mesh stores a copy of [att] with [n] value slots and returns the
    id of the copy. *)
Definition AddAttribute (att : PointAttribute) (identity_mapping : bool)
    (n : nat) (m : Mesh) : nat * Mesh :=
  (length (attributes m),
   {| num_points := num_points m;
      attributes := attributes m ++ [sized identity_mapping (num_points m) n att];
      attribute_data := attribute_data m ++ [MESH_CORNER_ATTRIBUTE];
      mesh_faces := mesh_faces m |}).

Definition SetAttributeElementType (att_id : nat)
    (et : MeshAttributeElementType) (m : Mesh) : Mesh :=
  {| num_points := num_points m; attributes := attributes m;
     attribute_data := <[att_id := et]> (attribute_data m);
     mesh_faces := mesh_faces m |}.

(** [mesh.attribute(att_id)->SetAttributeValue(avi, v)]: the attribute is
    the one stored in the mesh, so the mesh changes. *)
Definition SetAttributeValue (att_id avi : nat) (v : float * float * float)
    (m : Mesh) : Mesh :=
  {| num_points := num_points m;
     attributes := alter (set_value avi v) att_id (attributes m);
     attribute_data := attribute_data m; mesh_faces := mesh_faces m |}.

Definition SetFace (f : nat) (face : Face) (m : Mesh) : Mesh :=
  {| num_points := num_points m; attributes := attributes m;
     attribute_data := attribute_data m;
     mesh_faces := <[f := face]> (mesh_faces m) |}.

(** The first attribute of the given type, or a null pointer. *)
Definition GetNamedAttribute (t : GeometryAttributeType) (m : Mesh)
  : option PointAttribute :=
  snd <$> list_find (λ att, attribute_type att = t) (attributes m).

Definition num_faces (m : Mesh) : nat := length (mesh_faces m).

(** The algorithms of the library: they are used, not defined, by the
    bridge.  [EncodeMeshToBuffer] gives the status and the content of the
    [EncoderBuffer]; [DecodeMeshFromBuffer] gives a [unique_ptr<Mesh>]
    ([None]: null). *)
Record Library := {
  DeduplicateAttributeValues : Mesh → Mesh;
  DeduplicatePointIds : Mesh → Mesh;
  EncodeMeshToBuffer : Encoder → Mesh → Status * list byte;
  GetEncodedGeometryType : list byte → StatusOr EncodedGeometryType;
  DecodeMeshFromBuffer : list byte → StatusOr (option Mesh)
}.

End Containers.

Arguments PointAttribute : clear implicits.
Arguments Mesh : clear implicits.
Arguments Library : clear implicits.

End draco.

(** ** Calls, outcomes and the monad of the bridge *)

(** The calls that are logged: the construction of a mesh, the calls that
    change it, and the calls on the encoder and the decoder. *)
Inductive Call {float : Type} :=
| Mesh_ctor
| Mesh_set_num_points (n : nat)
| Mesh_SetNumFaces (n : nat)
| Mesh_AddAttribute (t : draco.GeometryAttributeType) (n : nat)
| Mesh_SetAttributeElementType (att_id : nat)
    (et : draco.MeshAttributeElementType)
| Attribute_SetAttributeValue (att_id avi : nat) (v : float * float * float)
| Mesh_SetFace (f : nat) (face : draco.Face)
| Mesh_DeduplicateAttributeValues
| Mesh_DeduplicatePointIds
| Encoder_SetSpeedOptions (encoding_speed decoding_speed : Z)
| Encoder_EncodeMeshToBuffer
| Decoder_GetEncodedGeometryType
| Decoder_DecodeMeshFromBuffer.
Arguments Call : clear implicits.

(** How a call of one of the two functions ends: with a value, with a
    [std::runtime_error], with a failed [assert] (the process aborts), or
    in undefined behaviour (a null pointer is dereferenced). *)
Inductive outcome (A : Type) :=
| Returned (a : A)
| Raised (what : string)
| Aborted (assertion : string)
| Undefined.
Arguments Returned {A} a.
Arguments Raised {A} what.
Arguments Aborted {A} assertion.
Arguments Undefined {A}.

(** [int DRACO_SPEED = 0;] is a variable of the process. *)
Record Globals := { DRACO_SPEED : Z }.

Definition initial_globals : Globals := {| DRACO_SPEED := 0 |}.

Section Bridge.

Context {float : Type}.

(** A computation: the calls it made, in order, and how it ended. *)
Definition M (A : Type) : Type := list (Call float) * outcome A.

#[global] Instance M_ret : MRet M := λ A a, ([], Returned a).

#[global] Instance M_bind : MBind M := λ A B k m,
  match m with
  | (log, Returned a) => let '(log', o) := k a in (log ++ log', o)
  | (log, Raised what) => (log, Raised what)
  | (log, Aborted assertion) => (log, Aborted assertion)
  | (log, Undefined) => (log, Undefined)
  end.

#[global] Instance M_fmap : FMap M := λ A B f m, a ← m; mret (f a).

Definition throw {A} (what : string) : M A := ([], Raised what).

Definition undefined {A} : M A := ([], Undefined).

(** One logged call with its result. *)
Definition invoke {A} (c : Call float) (result : A) : M A :=
  ([c], Returned result).

(** [assert(cond && message)]; compiled out when [NDEBUG] is defined. *)
Definition assert (NDEBUG cond : bool) (message : string) : M unit :=
  if NDEBUG || cond then mret tt else ([], Aborted message).

(** [for (size_t i = from; i < from + rows.size(); ++i) body(i, rows[i])],
    threading [s]. *)
Fixpoint for_rows {A St} (from : nat) (rows : list A)
    (body : nat → A → St → M St) (s : St) : M St :=
  match rows with
  | [] => mret s
  | row :: rest => s' ← body from row s; for_rows (S from) rest body s'
  end.

(** [for (PointIndex i(0); i < count; ++i) out(i) = body(i)]: the rows of
    the output array in index order. *)
Fixpoint fill_rows {A} (from count : nat) (body : nat → M A) : M (list A) :=
  match count with
  | O => mret []
  | S count' =>
      row ← body from; rest ← fill_rows (S from) count' body; mret (row :: rest)
  end.

Definition trace {A} (m : M A) : list (Call float) := fst m.

Definition result {A} (m : M A) : outcome A := snd m.

(** ** The bridge *)

(** A [pytensor<float, 2>] with three columns, row by row. *)
Definition vertices_array_t : Type := list (float * float * float).
Definition normals_array_t : Type := list (float * float * float).

(** A [pytensor<uint32_t, 2>] with three columns, row by row. *)
Definition faces_array_t : Type := list (Z * Z * Z).

(** [a.shape()]. *)
Definition shape {A} (a : list (A * A * A)) : nat * nat := (length a, 3%nat).

(** The elements of a faces array. *)
Definition elements (faces : faces_array_t) : list Z :=
  faces ≫= λ '(a, b, c), [a; b; c].

(** [xt::amax(faces)()], on an array that is not empty. *)
Definition amax (faces : faces_array_t) : Z := foldr Z.max 0 (elements faces).

Variable lib : draco.Library float.
Variable globals : Globals.
Variable NDEBUG : bool.

Abbreviation Mesh := (draco.Mesh float).
Abbreviation PointAttribute := (draco.PointAttribute float).

(** The logged calls, under their names in the source. *)
Definition Mesh_new : M Mesh := invoke Mesh_ctor draco.Mesh_new.

Definition set_num_points (n : nat) (mesh : Mesh) : M Mesh :=
  invoke (Mesh_set_num_points n) (draco.set_num_points n mesh).

Definition SetNumFaces (n : nat) (mesh : Mesh) : M Mesh :=
  invoke (Mesh_SetNumFaces n) (draco.SetNumFaces n mesh).

Definition AddAttribute (att : PointAttribute) (identity_mapping : bool)
    (n : nat) (mesh : Mesh) : M (nat * Mesh) :=
  invoke (Mesh_AddAttribute (draco.attribute_type att) n)
         (draco.AddAttribute att identity_mapping n mesh).

Definition SetAttributeElementType (att_id : nat)
    (et : draco.MeshAttributeElementType) (mesh : Mesh) : M Mesh :=
  invoke (Mesh_SetAttributeElementType att_id et)
         (draco.SetAttributeElementType att_id et mesh).

Definition SetAttributeValue (att_id avi : nat) (v : float * float * float)
    (mesh : Mesh) : M Mesh :=
  invoke (Attribute_SetAttributeValue att_id avi v)
         (draco.SetAttributeValue att_id avi v mesh).

Definition SetFace (f : nat) (face : draco.Face) (mesh : Mesh) : M Mesh :=
  invoke (Mesh_SetFace f face) (draco.SetFace f face mesh).

Definition DeduplicateAttributeValues (mesh : Mesh) : M Mesh :=
  invoke Mesh_DeduplicateAttributeValues
         (draco.DeduplicateAttributeValues lib mesh).

Definition DeduplicatePointIds (mesh : Mesh) : M Mesh :=
  invoke Mesh_DeduplicatePointIds (draco.DeduplicatePointIds lib mesh).

Definition SetSpeedOptions (encoding_speed decoding_speed : Z)
    (encoder : draco.Encoder) : M draco.Encoder :=
  invoke (Encoder_SetSpeedOptions encoding_speed decoding_speed)
         (draco.SetSpeedOptions encoding_speed decoding_speed encoder).

Definition EncodeMeshToBuffer (encoder : draco.Encoder) (mesh : Mesh)
  : M (draco.Status * list byte) :=
  invoke Encoder_EncodeMeshToBuffer (draco.EncodeMeshToBuffer lib encoder mesh).

Definition GetEncodedGeometryType (buf : list byte)
  : M (draco.StatusOr draco.EncodedGeometryType) :=
  invoke Decoder_GetEncodedGeometryType (draco.GetEncodedGeometryType lib buf).

Definition DecodeMeshFromBuffer (buf : list byte)
  : M (draco.StatusOr (option Mesh)) :=
  invoke Decoder_DecodeMeshFromBuffer (draco.DecodeMeshFromBuffer lib buf).

(** *** The mesh builder: lines 63 to 133 of the source *)

Definition build_mesh (vertices : vertices_array_t) (normals : normals_array_t)
    (faces : faces_array_t) : M Mesh :=
  let vertex_count := length vertices in
  let normal_count := length normals in
  let face_count := length faces in
  mesh ← Mesh_new;
  mesh ← set_num_points vertex_count mesh;
  mesh ← SetNumFaces face_count mesh;
  (* Init vertex attribute *)
  let vert_att_template :=
    draco.SetIdentityMapping
      (draco.Init draco.POSITION 3 draco.DT_FLOAT32 false
         (draco.DataTypeLength draco.DT_FLOAT32 * 3) 0
         draco.PointAttribute_new) in
  (* Add vertex attribute to mesh (makes a copy internally) *)
  '(vert_att_id, mesh) ← AddAttribute vert_att_template true vertex_count mesh;
  mesh ← SetAttributeElementType vert_att_id draco.MESH_VERTEX_ATTRIBUTE mesh;
  (* Load the vertices into the vertex attribute *)
  mesh ← for_rows 0 vertices
           (λ vi v mesh, SetAttributeValue vert_att_id vi v mesh) mesh;
  mesh ←
    (if (0 <? normal_count)%nat then
       (* Init normal attribute *)
       let norm_att_template :=
         draco.SetIdentityMapping
           (draco.Init draco.NORMAL 3 draco.DT_FLOAT32 false
              (draco.DataTypeLength draco.DT_FLOAT32 * 3) 0
              draco.PointAttribute_new) in
       '(norm_att_id, mesh) ←
         AddAttribute norm_att_template true normal_count mesh;
       mesh ←
         SetAttributeElementType norm_att_id draco.MESH_VERTEX_ATTRIBUTE mesh;
       for_rows 0 normals
         (λ ni n mesh, SetAttributeValue norm_att_id ni n mesh) mesh
     else mret mesh);
  (* Load the faces *)
  for_rows 0 faces
    (λ f '(a, b, c) mesh,
       let face : draco.Face := (a, b, c) in
       for_rows 0 [a; b; c]
         (λ _ vi _,
            assert NDEBUG (vi <? Z.of_nat vertex_count)
              "face has an out-of-bounds vertex") tt;;
       SetFace f face mesh) mesh.

(** *** [encode_faces_to_drc_bytes] *)

Definition encode_faces_to_drc_bytes (vertices : vertices_array_t)
    (normals : normals_array_t) (faces : faces_array_t) : M (list byte) :=
  let vertex_count := length vertices in
  let normal_count := length normals in
  let face_count := length faces in
  (* Special case: if faces is empty, an empty buffer is returned. *)
  if (face_count =? 0)%nat then mret []
  else
    let max_vertex := to_int (amax faces) in
    if Z.of_nat vertex_count <? int_add max_vertex 1 then
      throw "Face indexes exceed vertices length"
    else if (0 <? normal_count)%nat && negb (normal_count =? vertex_count)%nat then
      throw "normals array size does not correspond to vertices array size"
    else
      mesh ← build_mesh vertices normals faces;
      mesh ← DeduplicateAttributeValues mesh;
      mesh ← DeduplicatePointIds mesh;
      encoder ← SetSpeedOptions (DRACO_SPEED globals) (DRACO_SPEED globals)
                  draco.Encoder_new;
      (* the status of the encoder is dropped: only the buffer is read *)
      '(_, buf) ← EncodeMeshToBuffer encoder mesh;
      mret buf.

(** *** The extractor: lines 200 to 274 of the source *)

Definition extract (mesh : Mesh)
  : M (vertices_array_t * normals_array_t * faces_array_t) :=
  (* int point_count = pMesh->num_points(); *)
  let point_count := draco.num_points mesh in
  (* Extract vertices *)
  match draco.GetNamedAttribute draco.POSITION mesh with
  | None => throw "Draco mesh appears to have no vertices."
  | Some vertex_att =>
      vertices ← fill_rows 0 point_count
        (λ i, match draco.ConvertValue vertex_att
                      (draco.mapped_index vertex_att i) with
              | None => throw ("Error reading vertex " +:+ pretty i +:+ endl)
              | Some vertex_value => mret vertex_value
              end);
      (* Extract normals (if any) *)
      let normal_att := draco.GetNamedAttribute draco.NORMAL mesh in
      let normal_count :=
        match normal_att with
        | None => 0%nat
        | Some _ => point_count
        end in
      normals ←
        (if (0 <? normal_count)%nat then
           match normal_att with
           | None => undefined
           | Some normal_att =>
               fill_rows 0 normal_count
                 (λ i, match draco.ConvertValue normal_att
                               (draco.mapped_index normal_att i) with
                       | None =>
                           throw ("Error reading normal for point "
                                  +:+ pretty i +:+ endl)
                       | Some normal_value => mret normal_value
                       end)
           end
         else mret []);
      (* Extract faces *)
      faces ← fill_rows 0 (draco.num_faces mesh)
        (λ i, match draco.mesh_faces mesh !! i with
              | None => undefined
              | Some face => mret face
              end);
      mret (vertices, normals, faces)
  end.

(** *** [decode_drc_bytes_to_faces] *)

Definition decode_drc_bytes_to_faces (drc_bytes : list byte)
  : M (vertices_array_t * normals_array_t * faces_array_t) :=
  (* Special case: if drc_bytes is empty, return empty vertices and faces. *)
  if (length drc_bytes =? 0)%nat then mret ([], [], [])
  else
    let buf := drc_bytes in
    geometry_type ← draco.value <$> GetEncodedGeometryType buf;
    if bool_decide (geometry_type ≠ draco.TRIANGULAR_MESH) then
      throw "Buffer does not appear to be a mesh file. (Is it a pointcloud?)"
    else
      pMesh ← draco.value <$> DecodeMeshFromBuffer buf;
      match pMesh with
      | None => undefined
      | Some mesh =>
          mesh ← DeduplicateAttributeValues mesh;
          mesh ← DeduplicatePointIds mesh;
          extract mesh
      end.

End Bridge.

Arguments M : clear implicits.
Arguments vertices_array_t : clear implicits.
Arguments normals_array_t : clear implicits.

(** ** What a mesh and a pair of arrays describe *)

Section Geometry.

Context {float : Type}.

(** Row [i] of an array, for an index as a face stores it. *)
Definition row (a : list (float * float * float)) (i : Z)
  : option (float * float * float) :=
  if i <? 0 then None else a !! Z.to_nat i.

(** The rows the corners of the faces point at, corner by corner in face
    order: what a pair (array of rows, array of faces) describes whatever
    the numbering of its rows. *)
Definition corner_rows (a : list (float * float * float))
    (faces : faces_array_t) : list (option (float * float * float)) :=
  row a <$> elements faces.

(** The value of point [i] in an attribute, through the mapping table. *)
Definition point_value (att : draco.PointAttribute float) (i : nat)
  : option (float * float * float) :=
  draco.ConvertValue att (draco.mapped_index att i).

(** The values of the points [0 .. count - 1]. *)
Definition point_values (att : draco.PointAttribute float) (count : nat)
  : list (option (float * float * float)) :=
  point_value att <$> seq 0 count.

(** The values of an attribute at the corners of the faces of a mesh;
    [None] when the mesh has no attribute of that type. *)
Definition corner_values (t : draco.GeometryAttributeType)
    (mesh : draco.Mesh float)
  : option (list (option (float * float * float))) :=
  att ← draco.GetNamedAttribute t mesh;
  Some ((λ i, if i <? 0 then None else point_value att (Z.to_nat i))
          <$> elements (draco.mesh_faces mesh)).

(** The surface a mesh describes: positions and normals at the corners. *)
Definition surface (mesh : draco.Mesh float) :=
  (corner_values draco.POSITION mesh, corner_values draco.NORMAL mesh).

(** Every point has a value that reads as three floats, in the attribute
    of type [t] if the mesh has one. *)
Definition readable (t : draco.GeometryAttributeType)
    (mesh : draco.Mesh float) : Prop :=
  match draco.GetNamedAttribute t mesh with
  | None => True
  | Some att => Forall is_Some (point_values att (draco.num_points mesh))
  end.

(** Every face refers to points of the mesh. *)
Definition faces_in_range (mesh : draco.Mesh float) : Prop :=
  Forall (λ i, 0 <= i < Z.of_nat (draco.num_points mesh))
         (elements (draco.mesh_faces mesh)).

(** What a point carries: its position and its normal. *)
Definition point_data (mesh : draco.Mesh float) (i : nat) :=
  (att ← draco.GetNamedAttribute draco.POSITION mesh; point_value att i,
   att ← draco.GetNamedAttribute draco.NORMAL mesh; point_value att i).

(** No two points of the mesh carry the same data. *)
Definition distinct_points (mesh : draco.Mesh float) : Prop :=
  NoDup (point_data mesh <$> seq 0 (draco.num_points mesh)).

(** Both deduplication passes, in the order the bridge runs them. *)
Definition deduplicated (lib : draco.Library float) (mesh : draco.Mesh float)
  : draco.Mesh float :=
  draco.DeduplicatePointIds lib (draco.DeduplicateAttributeValues lib mesh).

(** An attribute of three [float]s per value, identity mapped, as
    [build_mesh] initialises it, holding [values]. *)
Definition float_attribute (t : draco.GeometryAttributeType)
    (values : list (float * float * float)) : draco.PointAttribute float :=
  {| draco.attribute_type := t; draco.num_components := 3;
     draco.data_type := draco.DT_FLOAT32; draco.normalized := false;
     draco.byte_stride := 12; draco.byte_offset := 0;
     draco.att_buffer := Some <$> values; draco.indices_map := None |}.

(** The mesh [build_mesh] leaves behind when no assertion fails. *)
Definition built_mesh (vertices : vertices_array_t float)
    (normals : normals_array_t float)
    (faces : faces_array_t) : draco.Mesh float :=
  {| draco.num_points := length vertices;
     draco.attributes :=
       float_attribute draco.POSITION vertices ::
       (if (0 <? length normals)%nat
        then [float_attribute draco.NORMAL normals] else []);
     draco.attribute_data :=
       draco.MESH_VERTEX_ATTRIBUTE ::
       (if (0 <? length normals)%nat
        then [draco.MESH_VERTEX_ATTRIBUTE] else []);
     draco.mesh_faces := faces |}.

(** The validation of [encode_faces_to_drc_bytes] as the spec words it. *)
Definition face_index_in_range (vertices : vertices_array_t float)
    (faces : faces_array_t) : Prop :=
  amax faces < Z.of_nat (length vertices).

Definition normal_count_consistent (vertices : vertices_array_t float)
    (normals : normals_array_t float) : Prop :=
  length normals = 0%nat ∨ length normals = length vertices.

(** The speed options a call handed to the encoder. *)
Definition speeds_applied (log : list (Call float)) : list (Z * Z) :=
  log ≫= λ c, match c with
              | Encoder_SetSpeedOptions e d => [(e, d)]
              | _ => []
              end.

(** The classes of calls. *)
Definition is_building (c : Call float) : bool :=
  match c with
  | Mesh_ctor | Mesh_set_num_points _ | Mesh_SetNumFaces _
  | Mesh_AddAttribute _ _ | Mesh_SetAttributeElementType _ _
  | Attribute_SetAttributeValue _ _ _ | Mesh_SetFace _ _ => true
  | _ => false
  end.

Definition is_deduplication (c : Call float) : bool :=
  match c with
  | Mesh_DeduplicateAttributeValues | Mesh_DeduplicatePointIds => true
  | _ => false
  end.

(** *** Triangles, whatever the order of the faces *)

(** The three corners of a triangle, each through [f]. *)
Definition corners {A B} (f : A → B) (t : A * A * A) : B * B * B :=
  let '(a, b, c) := t in (f a, f b, f c).



(** What the point a face index refers to carries. *)
Definition corner_data (mesh : draco.Mesh float) (i : Z) :=
  if i <? 0 then (None, None) else point_data mesh (Z.to_nat i).

(** The triangles a mesh describes: face by face, the position and the
    normal of the three points. *)
Definition mesh_triangles (mesh : draco.Mesh float) :=
  corners (corner_data mesh) <$> draco.mesh_faces mesh.

(** The same triangle, starting from its next corner. *)
Definition rotate {A} (t : A * A * A) : A * A * A :=
  let '(a, b, c) := t in (b, c, a).

(** The same triangle, from whichever corner it starts. *)
Definition same_triangle {A} (t t' : A * A * A) : Prop :=
  t' = t ∨ t' = rotate t ∨ t' = rotate (rotate t).

(** The same triangles, in whichever order the faces come and from
    whichever corner each face starts. *)
Definition same_triangles {A} (l l' : list (A * A * A)) : Prop :=
  ∃ k, l ≡ₚ k ∧ Forall2 same_triangle k l'.

(** Whether the mesh carries positions, and whether it carries normals. *)
Definition carried (mesh : draco.Mesh float) : bool * bool :=
  (bool_decide (is_Some (draco.GetNamedAttribute draco.POSITION mesh)),
   bool_decide (is_Some (draco.GetNamedAttribute draco.NORMAL mesh))).

End Geometry.

(** ** The log and the result of the loops *)

Section Runs.

Context {float : Type}.

(** The calls of a loop whose body makes one call per row. *)
Fixpoint rows_log {A} (from : nat) (rows : list A)
    (call : nat → A → Call float) : list (Call float) :=
  match rows with
  | [] => []
  | r :: rest => call from r :: rows_log (S from) rest call
  end.

(** The state after a loop whose body updates the state once per row. *)
Fixpoint rows_run {A St} (from : nat) (rows : list A)
    (update : nat → A → St → St) (s : St) : St :=
  match rows with
  | [] => s
  | r :: rest => rows_run (S from) rest update (update from r s)
  end.

(** The calls of [build_mesh] before it loads the faces. *)
Definition attribute_log (vertices : vertices_array_t float)
    (normals : normals_array_t float) (face_count : nat)
  : list (Call float) :=
  [Mesh_ctor; Mesh_set_num_points (length vertices);
   Mesh_SetNumFaces face_count;
   Mesh_AddAttribute draco.POSITION (length vertices);
   Mesh_SetAttributeElementType 0 draco.MESH_VERTEX_ATTRIBUTE]
  ++ rows_log 0 vertices (Attribute_SetAttributeValue 0)
  ++ (if (0 <? length normals)%nat then
        [Mesh_AddAttribute draco.NORMAL (length normals);
         Mesh_SetAttributeElementType 1 draco.MESH_VERTEX_ATTRIBUTE]
        ++ rows_log 0 normals (Attribute_SetAttributeValue 1)
      else []).

(** The calls of [build_mesh] when no assertion fails. *)
Definition build_log (vertices : vertices_array_t float)
    (normals : normals_array_t float) (faces : faces_array_t)
  : list (Call float) :=
  attribute_log vertices normals (length faces)
  ++ rows_log 0 faces Mesh_SetFace.

(** No [assert] of [build_mesh] fails: they are compiled out, or every
    face index is below the vertex count. *)
Definition assertions_hold (NDEBUG : bool) (vertices : vertices_array_t float)
    (faces : faces_array_t) : Prop :=
  NDEBUG = true ∨
  Forall (λ vi, vi < Z.of_nat (length vertices)) (elements faces).

(** The two guards of [encode_faces_to_drc_bytes], as it computes them. *)
Definition face_guard (vertices : vertices_array_t float)
    (faces : faces_array_t) : bool :=
  Z.of_nat (length vertices) <? int_add (to_int (amax faces)) 1.

Definition normal_guard (vertices : vertices_array_t float)
    (normals : normals_array_t float) : bool :=
  (0 <? length normals)%nat && negb (length normals =? length vertices)%nat.

(** The call reached the encoder. *)
Definition reaches_encoder (log : list (Call float)) : bool :=
  existsb (λ c, match c with
                | Encoder_EncodeMeshToBuffer => true
                | _ => false
                end) log.

(** What the round trip asks of the library, at the one mesh the bridge
    builds: deduplication keeps the surface; the encoder leaves a buffer
    that is not empty, that the decoder classifies as a triangular mesh and
    decodes to a mesh with the surface that was sent; after deduplication
    that mesh has a readable value for each point, faces that refer to its
    points, and no two points with the same data. *)
Definition round_trip_contract (lib : draco.Library float)
    (encoder : draco.Encoder) (mesh : draco.Mesh float) : Prop :=
  let sent := deduplicated lib mesh in
  let buf := snd (draco.EncodeMeshToBuffer lib encoder sent) in
  surface sent = surface mesh ∧
  buf ≠ [] ∧
  draco.value (draco.GetEncodedGeometryType lib buf) = draco.TRIANGULAR_MESH ∧
  ∃ received,
    draco.value (draco.DecodeMeshFromBuffer lib buf) = Some received ∧
    surface received = surface sent ∧
    surface (deduplicated lib received) = surface received ∧
    readable draco.POSITION (deduplicated lib received) ∧
    readable draco.NORMAL (deduplicated lib received) ∧
    faces_in_range (deduplicated lib received) ∧
    distinct_points (deduplicated lib received).

(** The same, for a library that is free to renumber the faces and to
    start each face from another corner, as a codec that walks the surface
    does: the encoder leaves a buffer that is not empty and that the decoder
    classifies as a triangular mesh; the mesh the decoder hands out, once
    deduplicated, carries the attributes of [mesh] and describes its
    triangles; it has a readable value for each point, faces that refer to
    its points, and no two points with the same data.  Nothing is asked of
    the points no face refers to. *)
Definition surface_kept (lib : draco.Library float)
    (encoder : draco.Encoder) (mesh : draco.Mesh float) : Prop :=
  let buf :=
    snd (draco.EncodeMeshToBuffer lib encoder (deduplicated lib mesh)) in
  buf ≠ [] ∧
  draco.value (draco.GetEncodedGeometryType lib buf) = draco.TRIANGULAR_MESH ∧
  ∃ received,
    draco.value (draco.DecodeMeshFromBuffer lib buf) = Some received ∧
    carried (deduplicated lib received) = carried mesh ∧
    same_triangles (mesh_triangles mesh)
                   (mesh_triangles (deduplicated lib received)) ∧
    readable draco.POSITION (deduplicated lib received) ∧
    readable draco.NORMAL (deduplicated lib received) ∧
    faces_in_range (deduplicated lib received) ∧
    distinct_points (deduplicated lib received).

(** The library with every status it reports replaced by [OK]. *)
Definition forget_status (lib : draco.Library float) : draco.Library float :=
  {| draco.DeduplicateAttributeValues := draco.DeduplicateAttributeValues lib;
     draco.DeduplicatePointIds := draco.DeduplicatePointIds lib;
     draco.EncodeMeshToBuffer := λ e m,
       (draco.OK, snd (draco.EncodeMeshToBuffer lib e m));
     draco.GetEncodedGeometryType := λ buf,
       {| draco.status := draco.OK;
          draco.value := draco.value (draco.GetEncodedGeometryType lib buf) |};
     draco.DecodeMeshFromBuffer := λ buf,
       {| draco.status := draco.OK;
          draco.value := draco.value (draco.DecodeMeshFromBuffer lib buf) |} |}.

End Runs.

(** ** A reference library

    A small implementation of the interface [draco.Library], over floats
    given by their 32 bits.  It deduplicates as the spec describes and its
    codec stores a triangle soup, so that decoding hands back one point per
    corner and the deduplication after decoding has work to do.  It is used
    to run the bridge on concrete arrays. *)

Module reference.

Definition float : Type := Z.

#[global] Instance byte_eq_decision : EqDecision byte := Byte.byte_eq_dec.

Definition index_of {A} `{EqDecision A} (x : A) (l : list A) : nat :=
  default 0%nat (fst <$> list_find (λ y, y = x) l).

(** One slot per distinct value, in the order the points meet them. *)
Definition dedup_values (points : nat) (att : draco.PointAttribute float)
  : draco.PointAttribute float :=
  let values := point_values att points in
  let slots := remove_dups values in
  {| draco.attribute_type := draco.attribute_type att;
     draco.num_components := draco.num_components att;
     draco.data_type := draco.data_type att;
     draco.normalized := draco.normalized att;
     draco.byte_stride := draco.byte_stride att;
     draco.byte_offset := draco.byte_offset att;
     draco.att_buffer := slots;
     draco.indices_map := Some ((λ v, index_of v slots) <$> values) |}.

Definition DeduplicateAttributeValues (m : draco.Mesh float)
  : draco.Mesh float :=
  {| draco.num_points := draco.num_points m;
     draco.attributes := dedup_values (draco.num_points m) <$> draco.attributes m;
     draco.attribute_data := draco.attribute_data m;
     draco.mesh_faces := draco.mesh_faces m |}.

(** The slots a point maps to, one per attribute. *)
Definition point_key (m : draco.Mesh float) (i : nat) : list (option nat) :=
  (λ att, draco.mapped_index att i) <$> draco.attributes m.

Definition remap_table (representatives : list nat)
    (att : draco.PointAttribute float) : draco.PointAttribute float :=
  {| draco.attribute_type := draco.attribute_type att;
     draco.num_components := draco.num_components att;
     draco.data_type := draco.data_type att;
     draco.normalized := draco.normalized att;
     draco.byte_stride := draco.byte_stride att;
     draco.byte_offset := draco.byte_offset att;
     draco.att_buffer := draco.att_buffer att;
     draco.indices_map :=
       Some ((λ r, default 0%nat (draco.mapped_index att r))
               <$> representatives) |}.

(** Points that map to the same slots in every attribute become one point;
    the faces follow. *)
Definition DeduplicatePointIds (m : draco.Mesh float) : draco.Mesh float :=
  let keys := point_key m <$> seq 0 (draco.num_points m) in
  let unique := remove_dups keys in
  let representatives := (λ k, index_of k keys) <$> unique in
  let renumber (i : Z) : Z :=
    if bool_decide (0 <= i < Z.of_nat (draco.num_points m))
    then Z.of_nat (index_of (point_key m (Z.to_nat i)) unique)
    else i in
  {| draco.num_points := length unique;
     draco.attributes := remap_table representatives <$> draco.attributes m;
     draco.attribute_data := draco.attribute_data m;
     draco.mesh_faces :=
       (λ '(a, b, c), (renumber a, renumber b, renumber c))
         <$> draco.mesh_faces m |}.

(** Four bytes, least significant first. *)
Definition byte_of (z : Z) : byte :=
  default x00 (Byte.of_N (Z.to_N (z mod 256))).

Definition le32 (z : Z) : list byte :=
  [byte_of z; byte_of (z / 2 ^ 8); byte_of (z / 2 ^ 16); byte_of (z / 2 ^ 24)].

Definition read32 (bs : list byte) : option (Z * list byte) :=
  match bs with
  | b0 :: b1 :: b2 :: b3 :: rest =>
      Some (Z.of_N (Byte.to_N b0) + 2 ^ 8 * Z.of_N (Byte.to_N b1)
            + 2 ^ 16 * Z.of_N (Byte.to_N b2) + 2 ^ 24 * Z.of_N (Byte.to_N b3),
            rest)
  | _ => None
  end.

Definition put3 (v : Z * Z * Z) : list byte :=
  let '(x, y, z) := v in le32 x ++ le32 y ++ le32 z.

Definition read3 (bs : list byte) : option (Z * Z * Z * list byte) :=
  '(x, bs) ← read32 bs; '(y, bs) ← read32 bs; '(z, bs) ← read32 bs;
  Some (x, y, z, bs).

Fixpoint read_rows (n : nat) (bs : list byte)
  : option (list (Z * Z * Z) * list byte) :=
  match n with
  | O => Some ([], bs)
  | S n' =>
      '(v, bs) ← read3 bs; '(rest, bs) ← read_rows n' bs; Some (v :: rest, bs)
  end.

(** The header: the letters D R A C O and the geometry kind. *)
Definition magic : list byte := [x44; x52; x41; x43; x4f].

Definition kind_byte (k : draco.EncodedGeometryType) : byte :=
  match k with
  | draco.POINT_CLOUD => x00
  | draco.TRIANGULAR_MESH => x01
  | draco.INVALID_GEOMETRY_TYPE => xff
  end.

(** The values of an attribute at the corners, if every corner has one. *)
Definition soup (t : draco.GeometryAttributeType) (m : draco.Mesh float)
  : option (list (Z * Z * Z)) :=
  corners ← corner_values t m; mapM id corners.

(** The encoder writes the header, the face count, a flag for normals and
    then, corner by corner, the position (and the normal).  It gives up
    after the header on a mesh with no face or with a corner it cannot
    read. *)
Definition EncodeMeshToBuffer (e : draco.Encoder) (m : draco.Mesh float)
  : draco.Status * list byte :=
  let header := magic ++ [kind_byte draco.TRIANGULAR_MESH] in
  match soup draco.POSITION m with
  | None => (draco.DRACO_ERROR "no positions", header)
  | Some positions =>
      if bool_decide (draco.mesh_faces m = []) then
        (draco.DRACO_ERROR "no faces", header)
      else
        match corner_values draco.NORMAL m with
        | None =>
            (draco.OK,
             header ++ le32 (Z.of_nat (draco.num_faces m)) ++ [x00]
                    ++ (positions ≫= put3))
        | Some _ =>
            match soup draco.NORMAL m with
            | None => (draco.DRACO_ERROR "no normals", header)
            | Some normals =>
                (draco.OK,
                 header ++ le32 (Z.of_nat (draco.num_faces m)) ++ [x01]
                        ++ (positions ≫= put3) ++ (normals ≫= put3))
            end
        end
  end.

Definition GetEncodedGeometryType (buf : list byte)
  : draco.StatusOr draco.EncodedGeometryType :=
  match buf with
  | d :: r :: a :: c :: o :: k :: _ =>
      if bool_decide ([d; r; a; c; o] = magic) then
        if bool_decide (k = x00) then
          {| draco.status := draco.OK; draco.value := draco.POINT_CLOUD |}
        else if bool_decide (k = x01) then
          {| draco.status := draco.OK; draco.value := draco.TRIANGULAR_MESH |}
        else
          {| draco.status := draco.DRACO_ERROR "Unsupported geometry type.";
             draco.value := draco.INVALID_GEOMETRY_TYPE |}
      else
        {| draco.status := draco.DRACO_ERROR "Not a Draco file.";
           draco.value := draco.INVALID_GEOMETRY_TYPE |}
  | _ =>
      {| draco.status := draco.DRACO_ERROR "Failed to parse Draco header.";
         draco.value := draco.INVALID_GEOMETRY_TYPE |}
  end.

(** One point per corner, three corners per face, in the order read. *)
Definition soup_mesh (faces : nat) (positions : list (Z * Z * Z))
    (normals : option (list (Z * Z * Z))) : draco.Mesh float :=
  {| draco.num_points := 3 * faces;
     draco.attributes :=
       float_attribute draco.POSITION positions ::
       match normals with
       | None => []
       | Some normals => [float_attribute draco.NORMAL normals]
       end;
     draco.attribute_data :=
       draco.MESH_CORNER_ATTRIBUTE ::
       match normals with
       | None => []
       | Some _ => [draco.MESH_CORNER_ATTRIBUTE]
       end;
     draco.mesh_faces :=
       (λ f, (Z.of_nat (3 * f), Z.of_nat (3 * f + 1), Z.of_nat (3 * f + 2)))
         <$> seq 0 faces |}.

Definition parse_mesh (buf : list byte) : option (draco.Mesh float) :=
  match buf with
  | d :: r :: a :: c :: o :: k :: body =>
      if bool_decide ([d; r; a; c; o; k] = magic ++ [x01]) then
        '(faces, body) ← read32 body;
        match body with
        | flag :: body =>
            '(positions, body) ← read_rows (3 * Z.to_nat faces) body;
            if bool_decide (flag = x00) then
              Some (soup_mesh (Z.to_nat faces) positions None)
            else
              '(normals, body) ← read_rows (3 * Z.to_nat faces) body;
              Some (soup_mesh (Z.to_nat faces) positions (Some normals))
        | [] => None
        end
      else None
  | _ => None
  end.

Definition DecodeMeshFromBuffer (buf : list byte)
  : draco.StatusOr (option (draco.Mesh float)) :=
  match parse_mesh buf with
  | Some m => {| draco.status := draco.OK; draco.value := Some m |}
  | None =>
      {| draco.status := draco.DRACO_ERROR "Failed to decode the mesh.";
         draco.value := None |}
  end.

Definition lib : draco.Library float :=
  {| draco.DeduplicateAttributeValues := DeduplicateAttributeValues;
     draco.DeduplicatePointIds := DeduplicatePointIds;
     draco.EncodeMeshToBuffer := EncodeMeshToBuffer;
     draco.GetEncodedGeometryType := GetEncodedGeometryType;
     draco.DecodeMeshFromBuffer := DecodeMeshFromBuffer |}.

(** A codec that gives up: its encoder writes the header, reports an error
    and stops; its decoder reports an error and hands out nothing. *)
Definition failing_lib : draco.Library float :=
  {| draco.DeduplicateAttributeValues := DeduplicateAttributeValues;
     draco.DeduplicatePointIds := DeduplicatePointIds;
     draco.EncodeMeshToBuffer := λ _ _,
       (draco.DRACO_ERROR "Failed to encode the mesh.",
        magic ++ [kind_byte draco.TRIANGULAR_MESH]);
     draco.GetEncodedGeometryType := GetEncodedGeometryType;
     draco.DecodeMeshFromBuffer := λ _,
       {| draco.status := draco.DRACO_ERROR "Failed to decode the mesh.";
          draco.value := None |} |}.

(** A mesh with its faces in the reverse order, each from its next
    corner. *)
Definition reordered (m : draco.Mesh float) : draco.Mesh float :=
  {| draco.num_points := draco.num_points m;
     draco.attributes := draco.attributes m;
     draco.attribute_data := draco.attribute_data m;
     draco.mesh_faces := reverse (rotate <$> draco.mesh_faces m) |}.

(** A codec like that of [lib] whose decoder hands out the faces in the
    reverse order, each from its next corner. *)
Definition reordering_lib : draco.Library float :=
  {| draco.DeduplicateAttributeValues := DeduplicateAttributeValues;
     draco.DeduplicatePointIds := DeduplicatePointIds;
     draco.EncodeMeshToBuffer := EncodeMeshToBuffer;
     draco.GetEncodedGeometryType := GetEncodedGeometryType;
     draco.DecodeMeshFromBuffer := λ buf,
       {| draco.status := draco.status (DecodeMeshFromBuffer buf);
          draco.value :=
            reordered <$> draco.value (DecodeMeshFromBuffer buf) |} |}.

(** A unit square as two triangles; the corner shared by both triangles
    is given twice, as rows 1 and 3. *)
Definition square : vertices_array_t float :=
  [(0, 0, 0); (1065353216, 0, 0); (1065353216, 1065353216, 0);
   (1065353216, 0, 0); (0, 1065353216, 0)].

Definition square_faces : faces_array_t := [(0, 1, 2); (0, 3, 4)].

(** One normal for every row of [square]: the z axis. *)
Definition square_normals : normals_array_t float :=
  replicate 5 (0, 0, 1065353216).

(** What the reference encoder leaves in its buffer for the square with
    its normals. *)
Definition square_buffer : list byte :=
  snd (EncodeMeshToBuffer draco.Encoder_new
         (deduplicated lib (built_mesh square square_normals square_faces))).

(** The mesh the reference decoder hands out for [square_buffer]. *)
Definition square_received : draco.Mesh float :=
  default draco.Mesh_new (draco.value (DecodeMeshFromBuffer square_buffer)).

(** The header of a point cloud, followed by one byte. *)
Definition point_cloud_buffer : list byte :=
  magic ++ [kind_byte draco.POINT_CLOUD; x00].

(** A library like [lib] whose decoder classifies every buffer as a
    triangular mesh and hands out the mesh [m]. *)
Definition handing_out (m : draco.Mesh float) : draco.Library float :=
  {| draco.DeduplicateAttributeValues := DeduplicateAttributeValues;
     draco.DeduplicatePointIds := DeduplicatePointIds;
     draco.EncodeMeshToBuffer := EncodeMeshToBuffer;
     draco.GetEncodedGeometryType := λ _,
       {| draco.status := draco.OK; draco.value := draco.TRIANGULAR_MESH |};
     draco.DecodeMeshFromBuffer := λ _,
       {| draco.status := draco.OK; draco.value := Some m |} |}.

(** An identity mapped attribute with the given value slots. *)
Definition slots (t : draco.GeometryAttributeType)
    (values : list (option (Z * Z * Z))) : draco.PointAttribute float :=
  {| draco.attribute_type := t; draco.num_components := 3;
     draco.data_type := draco.DT_FLOAT32; draco.normalized := false;
     draco.byte_stride := 12; draco.byte_offset := 0;
     draco.att_buffer := values; draco.indices_map := None |}.

(** One triangle over three points with the given attributes. *)
Definition triangle (atts : list (draco.PointAttribute float))
  : draco.Mesh float :=
  {| draco.num_points := 3; draco.attributes := atts;
     draco.attribute_data := (λ _, draco.MESH_VERTEX_ATTRIBUTE) <$> atts;
     draco.mesh_faces := [(0, 1, 2)] |}.

(** A triangle with normals and no positions. *)
Definition normals_only : draco.Mesh float :=
  triangle [slots draco.NORMAL [Some (1, 0, 0); Some (0, 1, 0); Some (0, 0, 1)]].

(** A triangle whose second position does not read. *)
Definition torn_positions : draco.Mesh float :=
  triangle [slots draco.POSITION [Some (1, 0, 0); None; Some (0, 0, 1)]].

(** A triangle whose third normal does not read. *)
Definition torn_normals : draco.Mesh float :=
  triangle
    [slots draco.POSITION [Some (1, 0, 0); Some (0, 1, 0); Some (0, 0, 1)];
     slots draco.NORMAL [Some (5, 5, 5); Some (6, 6, 6); None]].

End reference.

(** * Facts *)

(** ** C++ integers *)

Lemma to_int_small z : - 2 ^ 31 <= z < 2 ^ 31 → to_int z = z.
Proof.
  intros Hz. unfold to_int. rewrite Z.mod_small by lia. lia.
Qed.

Lemma to_int_large z : 2 ^ 31 <= z < 2 ^ 32 → to_int z = z - 2 ^ 32.
Proof.
  intros Hz. unfold to_int.
  replace (z + 2 ^ 31) with (z - 2 ^ 31 + 1 * 2 ^ 32) by lia.
  rewrite Z.mod_add by lia. rewrite Z.mod_small by lia. lia.
Qed.

Lemma to_int_range z : - 2 ^ 31 <= to_int z < 2 ^ 31.
Proof.
  unfold to_int.
  pose proof (Z.mod_pos_bound (z + 2 ^ 31) (2 ^ 32) ltac:(lia)). lia.
Qed.

(** ** The maximum of a faces array *)

Section Amax.

Lemma amax_nonneg faces : 0 <= amax faces.
Proof.
  unfold amax. induction (elements faces) as [|x l IH]; simpl; lia.
Qed.

Lemma amax_upper faces x : x ∈ elements faces → x <= amax faces.
Proof.
  unfold amax. induction (elements faces) as [|y l IH]; simpl.
  - intros H. inversion H.
  - intros [->|H]%elem_of_cons; [lia|]. specialize (IH H). lia.
Qed.

Lemma amax_uint32 faces :
  Forall is_uint32 (elements faces) → is_uint32 (amax faces).
Proof.
  unfold amax, is_uint32.
  induction 1 as [|x l Hx _ IH]; simpl; lia.
Qed.



Lemma elements_length faces : length (elements faces) = (3 * length faces)%nat.
Proof.
  induction faces as [|[[a b] c] rest IH]; [done|].
  change (elements (((a, b), c) :: rest)) with (a :: b :: c :: elements rest).
  simpl length. lia.
Qed.

End Amax.

(** ** The two guards *)

Section Guards.

Context {float : Type}.

Implicit Types (vertices : vertices_array_t float).
Implicit Types (normals : normals_array_t float).
Implicit Types (faces : faces_array_t).

(** The guard on the face indices lets every consistent input through. *)
Lemma face_guard_valid vertices faces :
  Forall is_uint32 (elements faces) →
  face_index_in_range vertices faces →
  face_guard vertices faces = false.
Proof.
  intros Hu Hr. apply amax_uint32 in Hu. unfold is_uint32 in Hu.
  unfold face_index_in_range in Hr. unfold face_guard, int_add.
  apply Z.ltb_ge.
  destruct (Z_lt_ge_dec (amax faces) (2 ^ 31)) as [Hs|Hl].
  - rewrite (to_int_small (amax faces)) by lia.
    destruct (Z.eq_dec (amax faces) (2 ^ 31 - 1)) as [He|Hne].
    + rewrite He. change (to_int (2 ^ 31 - 1 + 1)) with (- 2 ^ 31). lia.
    + rewrite to_int_small by lia. lia.
  - rewrite (to_int_large (amax faces)) by lia.
    rewrite to_int_small by lia. lia.
Qed.

(** Below [INT_MAX] the guard is the comparison the spec asks for. *)
Lemma face_guard_small vertices faces :
  0 <= amax faces < 2 ^ 31 - 1 →
  face_guard vertices faces = true ↔ ¬ face_index_in_range vertices faces.
Proof.
  intros Hs. unfold face_guard, face_index_in_range, int_add.
  rewrite (to_int_small (amax faces)) by lia.
  rewrite to_int_small by lia. rewrite Z.ltb_lt. lia.
Qed.

Lemma normal_guard_true vertices normals :
  normal_guard vertices normals = true ↔
  ¬ normal_count_consistent vertices normals.
Proof.
  unfold normal_guard, normal_count_consistent.
  rewrite andb_true_iff, negb_true_iff, Nat.ltb_lt, Nat.eqb_neq. lia.
Qed.

Lemma normal_guard_false vertices normals :
  normal_guard vertices normals = false ↔
  normal_count_consistent vertices normals.
Proof.
  rewrite <- not_true_iff_false, normal_guard_true.
  unfold normal_count_consistent. lia.
Qed.

Lemma valid_faces_below vertices faces :
  face_index_in_range vertices faces →
  Forall (λ vi, vi < Z.of_nat (length vertices)) (elements faces).
Proof.
  unfold face_index_in_range. intros Hr. apply Forall_forall.
  intros x Hx. apply amax_upper in Hx. lia.
Qed.

End Guards.

(** ** The monad *)

Section MonadFacts.

Context {float : Type}.

Lemma bind_unfold {A B} (m : M float A) (k : A → M float B) :
  m ≫= k =
  match result m with
  | Returned a => (trace m ++ trace (k a), result (k a))
  | Raised what => (trace m, Raised what)
  | Aborted assertion => (trace m, Aborted assertion)
  | Undefined => (trace m, Undefined)
  end.
Proof.
  destruct m as [log [a|what|assertion|]]; simpl; try reflexivity.
  unfold mbind, M_bind. destruct (k a). reflexivity.
Qed.

Lemma bind_returned {A B} log (a : A) (k : A → M float B) :
  (log, Returned a) ≫= k = (log ++ trace (k a), result (k a)).
Proof. rewrite bind_unfold. reflexivity. Qed.

Lemma bind_ext {A B} (m : M float A) (k k' : A → M float B) :
  (∀ a, k a = k' a) → m ≫= k = m ≫= k'.
Proof.
  intros Hext. rewrite !bind_unfold.
  destruct (result m); try reflexivity. rewrite Hext. reflexivity.
Qed.

Lemma bind_mret {A B} (a : A) (k : A → M float B) : mret a ≫= k = k a.
Proof.
  unfold mret, M_ret. rewrite bind_returned. destruct (k a). reflexivity.
Qed.

Lemma bind_invoke {A B} c (r : A) (k : A → M float B) :
  invoke c r ≫= k = (c :: trace (k r), result (k r)).
Proof. unfold invoke. rewrite bind_returned. reflexivity. Qed.

Lemma bind_invoke_eq {A B} c (r : A) (k : A → M float B) t o :
  k r = (t, o) → invoke c r ≫= k = (c :: t, o).
Proof. intros Hk. rewrite bind_invoke, Hk. reflexivity. Qed.

Lemma bind_run_eq {A B} (m : M float A) (k : A → M float B) t1 a t2 o :
  m = (t1, Returned a) → k a = (t2, o) → m ≫= k = (t1 ++ t2, o).
Proof. intros -> Hk. rewrite bind_returned, Hk. reflexivity. Qed.

Lemma fmap_invoke {A B} c (r : A) (f : A → B) :
  f <$> invoke c r = invoke (float := float) c (f r).
Proof. reflexivity. Qed.

Lemma trace_bind {A B} (m : M float A) (k : A → M float B) :
  trace (m ≫= k) =
  trace m ++ match result m with Returned a => trace (k a) | _ => [] end.
Proof.
  rewrite bind_unfold.
  destruct (result m); simpl; rewrite ?app_nil_r; reflexivity.
Qed.

Lemma pair_trace_result {A} (m : M float A) : m = (trace m, result m).
Proof. destruct m. reflexivity. Qed.

(** *** Loops *)

Lemma for_rows_cons {A St} from (r : A) rest
    (body : nat → A → St → M float St) s :
  for_rows from (r :: rest) body s =
  body from r s ≫= λ s', for_rows (S from) rest body s'.
Proof. reflexivity. Qed.

Lemma fill_rows_S {A} from count (body : nat → M float A) :
  fill_rows from (S count) body =
  body from ≫= λ row,
    fill_rows (S from) count body ≫= λ rest, mret (row :: rest).
Proof. reflexivity. Qed.

(** A loop whose body makes one call per row and cannot fail. *)
Lemma for_rows_invoke {A St} (call : nat → A → Call float)
    (update : nat → A → St → St) rows :
  ∀ from s,
    for_rows from rows (λ i r s, invoke (call i r) (update i r s)) s =
    (rows_log from rows call, Returned (rows_run from rows update s)).
Proof.
  induction rows as [|r rest IH]; intros from s.
  - reflexivity.
  - rewrite for_rows_cons, bind_invoke, IH. reflexivity.
Qed.

Lemma for_rows_ext {A St} (body body' : nat → A → St → M float St) rows :
  ∀ from s,
    (∀ i r s, r ∈ rows → body i r s = body' i r s) →
    for_rows from rows body s = for_rows from rows body' s.
Proof.
  induction rows as [|r rest IH]; intros from s Hext.
  - reflexivity.
  - rewrite !for_rows_cons. rewrite Hext by apply list_elem_of_here.
    apply bind_ext. intros s'. apply IH.
    intros i r' s'' Hin. apply Hext. by apply list_elem_of_further.
Qed.

(** The calls of a loop are calls of its body. *)
Lemma for_rows_trace {A St} (P : Call float → Prop)
    (body : nat → A → St → M float St) rows :
  (∀ i r s, Forall P (trace (body i r s))) →
  ∀ from s, Forall P (trace (for_rows from rows body s)).
Proof.
  intros Hbody. induction rows as [|r rest IH]; intros from s.
  - constructor.
  - rewrite for_rows_cons, trace_bind. apply Forall_app. split; [apply Hbody|].
    destruct (result (body from r s)); [apply IH|constructor..].
Qed.

(** A loop that fills an array and whose body cannot fail. *)
Lemma fill_rows_lookup {A} (body : nat → M float A) (l : list A) :
  ∀ from,
    (∀ i x, l !! i = Some x → body (from + i)%nat = mret x) →
    fill_rows from (length l) body = mret l.
Proof.
  induction l as [|x l IH]; intros from Hbody.
  - reflexivity.
  - simpl length. rewrite fill_rows_S.
    specialize (Hbody 0%nat x eq_refl) as H0.
    rewrite Nat.add_0_r in H0. rewrite H0, bind_mret.
    rewrite IH, bind_mret; [reflexivity|].
    intros i y Hi. rewrite <- (Hbody (S i) y Hi). f_equal. lia.
Qed.

(** A loop that fills an array makes no call if its body makes none. *)
Lemma fill_rows_silent {A} (body : nat → M float A) count :
  (∀ i, trace (body i) = []) →
  ∀ from, trace (fill_rows from count body) = [].
Proof.
  intros Hbody. induction count as [|count IH]; intros from.
  - reflexivity.
  - rewrite fill_rows_S, trace_bind, Hbody. simpl.
    destruct (result (body from)); try reflexivity.
    rewrite trace_bind, IH. simpl.
    destruct (result (fill_rows (S from) count body)); reflexivity.
Qed.

End MonadFacts.

(** ** Arrays written slot by slot *)

Section Slots.

Context {A B : Type}.

(** Writing the rows one after the other into fresh slots leaves the rows. *)
Lemma rows_run_insert (g : A → B) (d : B) rows :
  ∀ pre,
    rows_run (length pre) rows (λ i r (b : list B), <[i := g r]> b)
      (pre ++ replicate (length rows) d) = pre ++ (g <$> rows).
Proof.
  induction rows as [|r rest IH]; intros pre.
  - reflexivity.
  - simpl. rewrite insert_app_r_alt by lia.
    rewrite Nat.sub_diag. simpl.
    specialize (IH (pre ++ [g r])).
    rewrite length_app, Nat.add_1_r, <- !app_assoc in IH. exact IH.
Qed.

Lemma rows_run_insert_0 (g : A → B) (d : B) rows :
  rows_run 0 rows (λ i r (b : list B), <[i := g r]> b)
    (replicate (length rows) d) = g <$> rows.
Proof. apply (rows_run_insert g d rows []). Qed.

End Slots.

(** ** The mesh builder *)

Section Builder.

Context {float : Type}.

Implicit Types (vertices : vertices_array_t float).
Implicit Types (normals : normals_array_t float).
Implicit Types (faces : faces_array_t).

Lemma run_set_value rows :
  ∀ from (att : draco.PointAttribute float),
    rows_run from rows (λ i v att, draco.set_value i v att) att =
    {| draco.attribute_type := draco.attribute_type att;
       draco.num_components := draco.num_components att;
       draco.data_type := draco.data_type att;
       draco.normalized := draco.normalized att;
       draco.byte_stride := draco.byte_stride att;
       draco.byte_offset := draco.byte_offset att;
       draco.att_buffer :=
         rows_run from rows (λ i v b, <[i := Some v]> b) (draco.att_buffer att);
       draco.indices_map := draco.indices_map att |}.
Proof.
  induction rows as [|r rest IH]; intros from att.
  - destruct att; reflexivity.
  - simpl. rewrite IH. reflexivity.
Qed.

Lemma run_SetAttributeValue att_id rows :
  ∀ from (m : draco.Mesh float),
    rows_run from rows (λ i v m, draco.SetAttributeValue att_id i v m) m =
    {| draco.num_points := draco.num_points m;
       draco.attributes :=
         alter (rows_run from rows (λ i v att, draco.set_value i v att))
               att_id (draco.attributes m);
       draco.attribute_data := draco.attribute_data m;
       draco.mesh_faces := draco.mesh_faces m |}.
Proof.
  induction rows as [|r rest IH]; intros from m.
  - simpl. rewrite list_alter_id by done. destruct m; reflexivity.
  - simpl. rewrite IH. simpl. rewrite list_alter_alter_eq. reflexivity.
Qed.

Lemma run_SetFace rows :
  ∀ from (m : draco.Mesh float),
    rows_run from rows (λ f face m, draco.SetFace f face m) m =
    {| draco.num_points := draco.num_points m;
       draco.attributes := draco.attributes m;
       draco.attribute_data := draco.attribute_data m;
       draco.mesh_faces :=
         rows_run from rows (λ f face b, <[f := face]> b) (draco.mesh_faces m) |}.
Proof.
  induction rows as [|r rest IH]; intros from m.
  - destruct m; reflexivity.
  - simpl. rewrite IH. reflexivity.
Qed.

Lemma elements_face a b c faces :
  (a, b, c) ∈ faces →
  a ∈ elements faces ∧ b ∈ elements faces ∧ c ∈ elements faces.
Proof.
  intros Hin. unfold elements.
  repeat split; apply list_elem_of_bind; exists (a, b, c);
    (split; [|done]); repeat constructor.
Qed.

(** The body of the loop over the faces. *)
Local Abbreviation load_face NDEBUG vertices :=
  (λ (f : nat) '(a, b, c) (mesh : draco.Mesh float),
     let face : draco.Face := (a, b, c) in
     for_rows 0 [a; b; c]
       (λ _ vi _,
          assert NDEBUG (vi <? Z.of_nat (length vertices))
            "face has an out-of-bounds vertex") tt;;
     SetFace f face mesh).

(** One face whose assertions hold is one call of [SetFace]. *)
Lemma load_face_run NDEBUG vertices f a b c (mesh : draco.Mesh float) :
  NDEBUG = true ∨
  (a < Z.of_nat (length vertices) ∧ b < Z.of_nat (length vertices)
   ∧ c < Z.of_nat (length vertices)) →
  load_face NDEBUG vertices f (a, b, c) mesh =
  invoke (Mesh_SetFace f (a, b, c)) (draco.SetFace f (a, b, c) mesh).
Proof.
  intros Hok.
  assert (∀ vi, (NDEBUG = true ∨ vi < Z.of_nat (length vertices)) →
            assert (float := float) NDEBUG (vi <? Z.of_nat (length vertices))
              "face has an out-of-bounds vertex" = mret tt) as Hone.
  { intros vi [->|Hvi]; [done|]. unfold assert.
    apply Z.ltb_lt in Hvi. rewrite Hvi, orb_true_r. done. }
  cbv beta iota zeta.
  do 3 (rewrite for_rows_cons;
        rewrite Hone by (destruct Hok as [?|(?&?&?)]; auto);
        rewrite bind_mret).
  simpl for_rows. rewrite bind_mret. reflexivity.
Qed.

(** One face with an index that is not below the vertex count: the
    assertion fails before [SetFace] is called. *)
Lemma load_face_aborts vertices f a b c (mesh : draco.Mesh float) :
  ¬ (a < Z.of_nat (length vertices) ∧ b < Z.of_nat (length vertices)
     ∧ c < Z.of_nat (length vertices)) →
  load_face false vertices f (a, b, c) mesh =
  ([], Aborted "face has an out-of-bounds vertex").
Proof.
  intros Hbad. cbv beta iota zeta. unfold assert. cbn [orb].
  rewrite for_rows_cons.
  destruct (a <? Z.of_nat (length vertices)) eqn:Ha; [|reflexivity].
  rewrite bind_mret, for_rows_cons.
  destruct (b <? Z.of_nat (length vertices)) eqn:Hb; [|reflexivity].
  rewrite bind_mret, for_rows_cons.
  destruct (c <? Z.of_nat (length vertices)) eqn:Hc; [|reflexivity].
  apply Z.ltb_lt in Ha, Hb, Hc. tauto.
Qed.

Lemma face_loop NDEBUG vertices faces :
  assertions_hold NDEBUG vertices faces →
  ∀ from (mesh : draco.Mesh float),
    for_rows from faces (load_face NDEBUG vertices) mesh =
    (rows_log from faces Mesh_SetFace,
     Returned (rows_run from faces (λ f face m, draco.SetFace f face m) mesh)).
Proof.
  intros Hassert from mesh.
  rewrite (for_rows_ext _
    (λ f face mesh, invoke (Mesh_SetFace f face) (draco.SetFace f face mesh))).
  { apply for_rows_invoke. }
  intros i [[a b] c] s Hin. apply load_face_run.
  destruct Hassert as [->|Hall]; [by left|right].
  rewrite Forall_forall in Hall.
  destruct (elements_face a b c faces Hin) as (Ha & Hb & Hc).
  auto.
Qed.

(** With the assertions compiled in, the loop over the faces stops at the
    first face with an index that is not below the vertex count. *)
Lemma face_loop_aborts vertices faces :
  ¬ Forall (λ vi, vi < Z.of_nat (length vertices)) (elements faces) →
  ∀ from (mesh : draco.Mesh float),
    result (for_rows from faces (load_face false vertices) mesh) =
    Aborted "face has an out-of-bounds vertex".
Proof.
  induction faces as [|[[a b] c] rest IH]; intros Hbad from mesh.
  - destruct Hbad. constructor.
  - rewrite for_rows_cons.
    destruct (decide (a < Z.of_nat (length vertices)
                      ∧ b < Z.of_nat (length vertices)
                      ∧ c < Z.of_nat (length vertices))) as [(Ha & Hb & Hc)|Hface].
    + rewrite load_face_run by (right; done). rewrite bind_invoke.
      apply IH. intros Hrest. apply Hbad.
      change (elements (((a, b), c) :: rest)) with (a :: b :: c :: elements rest).
      by repeat constructor.
    + rewrite load_face_aborts by done. reflexivity.
Qed.

(** The builder up to the loop over the faces: it cannot fail. *)
Lemma build_mesh_attributes NDEBUG vertices normals faces :
  build_mesh NDEBUG vertices normals faces =
  (attribute_log vertices normals (length faces),
   Returned (built_mesh vertices normals
               (replicate (length faces) (0, 0, 0))))
  ≫= for_rows 0 faces (load_face NDEBUG vertices).
Proof.
  rewrite bind_returned. unfold build_mesh, attribute_log.
  unfold Mesh_new, set_num_points, SetNumFaces, AddAttribute,
    SetAttributeElementType.
  rewrite <- !app_assoc. simpl app.
  do 5 (apply bind_invoke_eq; cbn beta iota).
  eapply bind_run_eq; [apply for_rows_invoke|].
  rewrite run_SetAttributeValue.
  cbn [length app alter list_alter fst snd draco.attributes draco.num_points
       draco.attribute_data draco.mesh_faces draco.SetAttributeElementType
       draco.AddAttribute draco.SetNumFaces draco.set_num_points
       draco.Mesh_new].
  destruct (0 <? length normals)%nat eqn:Hn.
  - eapply bind_run_eq.
    { simpl app. do 2 (apply bind_invoke_eq; cbn beta iota).
      apply for_rows_invoke. }
    match goal with
    | |- for_rows _ _ _ ?m = _ =>
        replace m with (built_mesh vertices normals
                          (replicate (length faces) (0, 0, 0)))
    end; [apply pair_trace_result|].
    rewrite run_SetAttributeValue. cbn.
    rewrite !run_set_value. cbn.
    rewrite !(rows_run_insert_0 Some None), resize_nil.
    unfold built_mesh. rewrite Hn. reflexivity.
  - rewrite bind_mret. simpl app.
    match goal with
    | |- for_rows _ _ _ ?m = _ =>
        replace m with (built_mesh vertices normals
                          (replicate (length faces) (0, 0, 0)))
    end; [apply pair_trace_result|].
    rewrite run_set_value. cbn.
    rewrite (rows_run_insert_0 Some None), resize_nil.
    unfold built_mesh. rewrite Hn. reflexivity.
Qed.

Lemma build_mesh_run NDEBUG vertices normals faces :
  assertions_hold NDEBUG vertices faces →
  build_mesh NDEBUG vertices normals faces =
  (build_log vertices normals faces,
   Returned (built_mesh vertices normals faces)).
Proof.
  intros Hassert.
  rewrite build_mesh_attributes, bind_returned, face_loop by done.
  unfold build_log. cbn [trace result fst snd]. f_equal. f_equal.
  rewrite run_SetFace. unfold built_mesh.
  cbn [draco.num_points draco.attributes draco.attribute_data draco.mesh_faces].
  rewrite (rows_run_insert_0 id (0, 0, 0)), list_fmap_id. reflexivity.
Qed.

(** With the assertions compiled in and a face index that is not below
    the vertex count, the builder ends in the failed assertion. *)
Lemma build_mesh_aborts vertices normals faces :
  ¬ assertions_hold false vertices faces →
  result (build_mesh false vertices normals faces) =
  Aborted "face has an out-of-bounds vertex".
Proof.
  intros Hbad.
  rewrite build_mesh_attributes, bind_returned. cbn [result snd].
  apply face_loop_aborts. intros Hall. apply Hbad. by right.
Qed.

End Builder.

(** ** [encode_faces_to_drc_bytes], path by path *)

Section Encode.

Context {float : Type}.

Variable lib : draco.Library float.
Variable globals : Globals.
Variable NDEBUG : bool.

Implicit Types (vertices : vertices_array_t float).
Implicit Types (normals : normals_array_t float).
Implicit Types (faces : faces_array_t).

(** Whatever the input, [build_mesh] only makes building calls. *)
Lemma build_mesh_building vertices normals faces :
  Forall is_building (trace (build_mesh NDEBUG vertices normals faces)).
Proof.
  unfold build_mesh, Mesh_new, set_num_points, SetNumFaces, AddAttribute,
    SetAttributeElementType.
  unfold draco.AddAttribute.
  do 5 (rewrite bind_invoke; cbn [trace fst]; cbn beta iota;
        apply Forall_cons; split; [reflexivity|]).
  rewrite trace_bind. apply Forall_app. split.
  { apply for_rows_trace. intros i r s. repeat constructor. }
  destruct (result _) as [mesh| | |]; try constructor.
  rewrite trace_bind. apply Forall_app. split.
  { destruct (0 <? length normals)%nat; [|constructor].
    do 2 (rewrite bind_invoke; cbn [trace fst]; cbn beta iota;
          apply Forall_cons; split; [reflexivity|]).
    apply for_rows_trace. intros i r s. repeat constructor. }
  destruct (result _) as [mesh'| | |]; try constructor.
  apply for_rows_trace. intros i [[a b] c] s.
  rewrite trace_bind. apply Forall_app. split.
  - apply for_rows_trace. intros _ vi _. unfold assert.
    destruct (NDEBUG || (vi <? _)); constructor.
  - destruct (result _); repeat constructor.
Qed.

Lemma encode_empty vertices normals :
  encode_faces_to_drc_bytes lib globals NDEBUG vertices normals [] =
  ([], Returned []).
Proof. reflexivity. Qed.

Lemma encode_face_error vertices normals faces :
  faces ≠ [] →
  face_guard vertices faces = true →
  encode_faces_to_drc_bytes lib globals NDEBUG vertices normals faces =
  ([], Raised "Face indexes exceed vertices length").
Proof.
  intros Hne Hg. unfold encode_faces_to_drc_bytes.
  destruct faces as [|face rest]; [done|].
  cbn [length Nat.eqb]. fold (face_guard vertices (face :: rest)).
  rewrite Hg. reflexivity.
Qed.

Lemma encode_normal_error vertices normals faces :
  faces ≠ [] →
  face_guard vertices faces = false →
  normal_guard vertices normals = true →
  encode_faces_to_drc_bytes lib globals NDEBUG vertices normals faces =
  ([], Raised "normals array size does not correspond to vertices array size").
Proof.
  intros Hne Hf Hn. unfold encode_faces_to_drc_bytes.
  destruct faces as [|face rest]; [done|].
  cbn [length Nat.eqb]. fold (face_guard vertices (face :: rest)).
  fold (normal_guard vertices normals).
  rewrite Hf, Hn. reflexivity.
Qed.

(** Past the guards, the call is the builder followed by deduplication
    and the encoder. *)
Lemma encode_passed vertices normals faces :
  faces ≠ [] →
  face_guard vertices faces = false →
  normal_guard vertices normals = false →
  encode_faces_to_drc_bytes lib globals NDEBUG vertices normals faces =
  build_mesh NDEBUG vertices normals faces ≫= λ mesh,
    ([Mesh_DeduplicateAttributeValues; Mesh_DeduplicatePointIds;
      Encoder_SetSpeedOptions (DRACO_SPEED globals) (DRACO_SPEED globals);
      Encoder_EncodeMeshToBuffer],
     Returned
       (snd (draco.EncodeMeshToBuffer lib
               (draco.SetSpeedOptions (DRACO_SPEED globals)
                  (DRACO_SPEED globals) draco.Encoder_new)
               (deduplicated lib mesh)))).
Proof.
  intros Hne Hf Hn. unfold encode_faces_to_drc_bytes.
  destruct faces as [|face rest]; [done|].
  cbn [length Nat.eqb]. fold (face_guard vertices (face :: rest)).
  fold (normal_guard vertices normals).
  rewrite Hf, Hn. apply bind_ext. intros mesh.
  unfold DeduplicateAttributeValues, DeduplicatePointIds, SetSpeedOptions,
    EncodeMeshToBuffer.
  do 4 (apply bind_invoke_eq; cbn beta).
  unfold deduplicated.
  destruct (draco.EncodeMeshToBuffer lib _ _) as [st buf]. reflexivity.
Qed.

(** The path that reaches the encoder. *)
Lemma encode_run vertices normals faces :
  faces ≠ [] →
  face_guard vertices faces = false →
  normal_guard vertices normals = false →
  assertions_hold NDEBUG vertices faces →
  encode_faces_to_drc_bytes lib globals NDEBUG vertices normals faces =
  (build_log vertices normals faces
   ++ [Mesh_DeduplicateAttributeValues; Mesh_DeduplicatePointIds;
       Encoder_SetSpeedOptions (DRACO_SPEED globals) (DRACO_SPEED globals);
       Encoder_EncodeMeshToBuffer],
   Returned
     (snd (draco.EncodeMeshToBuffer lib
             (draco.SetSpeedOptions (DRACO_SPEED globals)
                (DRACO_SPEED globals) draco.Encoder_new)
             (deduplicated lib (built_mesh vertices normals faces))))).
Proof.
  intros Hne Hf Hn Hassert.
  rewrite encode_passed by done.
  rewrite (build_mesh_run NDEBUG) by done.
  rewrite bind_returned. reflexivity.
Qed.

(** Past the guards with a failing assertion, the process is aborted. *)
Lemma encode_aborts vertices normals faces :
  faces ≠ [] →
  face_guard vertices faces = false →
  normal_guard vertices normals = false →
  ¬ assertions_hold NDEBUG vertices faces →
  result (encode_faces_to_drc_bytes lib globals NDEBUG vertices normals faces)
  = Aborted "face has an out-of-bounds vertex".
Proof.
  intros Hne Hf Hn Hbad.
  assert (NDEBUG = false) as Hdebug.
  { apply not_true_is_false. intros Htrue. apply Hbad. by left. }
  rewrite encode_passed, bind_unfold by done.
  rewrite Hdebug in Hbad |- *.
  rewrite build_mesh_aborts by done. reflexivity.
Qed.

(** The five ways a call of [encode_faces_to_drc_bytes] goes. *)
Lemma encode_cases vertices normals faces :
  let call :=
    encode_faces_to_drc_bytes lib globals NDEBUG vertices normals faces in
  (faces = [] ∧ call = ([], Returned [])) ∨
  (faces ≠ [] ∧ face_guard vertices faces = true ∧
   call = ([], Raised "Face indexes exceed vertices length")) ∨
  (faces ≠ [] ∧ face_guard vertices faces = false ∧
   normal_guard vertices normals = true ∧
   call = ([], Raised "normals array size does not correspond to vertices array size")) ∨
  (faces ≠ [] ∧ face_guard vertices faces = false ∧
   normal_guard vertices normals = false ∧
   assertions_hold NDEBUG vertices faces ∧
   ∃ buf, call = (build_log vertices normals faces
                  ++ [Mesh_DeduplicateAttributeValues; Mesh_DeduplicatePointIds;
                      Encoder_SetSpeedOptions (DRACO_SPEED globals)
                        (DRACO_SPEED globals);
                      Encoder_EncodeMeshToBuffer],
                  Returned buf)) ∨
  (faces ≠ [] ∧ face_guard vertices faces = false ∧
   normal_guard vertices normals = false ∧
   ¬ assertions_hold NDEBUG vertices faces ∧
   result call = Aborted "face has an out-of-bounds vertex").
Proof.
  intros call. unfold call.
  destruct (decide (faces = [])) as [->|Hne]; [by left|]. right.
  destruct (face_guard vertices faces) eqn:Hf.
  { left. by rewrite encode_face_error. }
  right.
  destruct (normal_guard vertices normals) eqn:Hn.
  { left. by rewrite encode_normal_error. }
  right.
  destruct (decide (NDEBUG = true ∨
                    Forall (λ vi, vi < Z.of_nat (length vertices))
                           (elements faces))) as [Hok|Hbad].
  - left. rewrite encode_run by done. eauto 6.
  - right. by rewrite encode_aborts.
Qed.

(** A call that made a call at all went past the guards. *)
Lemma encode_trace_passed vertices normals faces c :
  c ∈ trace (encode_faces_to_drc_bytes lib globals NDEBUG
               vertices normals faces) →
  faces ≠ [] ∧ face_guard vertices faces = false
  ∧ normal_guard vertices normals = false.
Proof.
  intros Hin.
  destruct faces as [|face rest].
  { rewrite encode_empty in Hin. inversion Hin. }
  destruct (face_guard vertices (face :: rest)) eqn:Hf.
  { rewrite encode_face_error in Hin by done. inversion Hin. }
  destruct (normal_guard vertices normals) eqn:Hn.
  { rewrite encode_normal_error in Hin by done. inversion Hin. }
  done.
Qed.

End Encode.

(** ** The extractor *)

Section Extract.

Context {float : Type}.

Implicit Types (mesh : draco.Mesh float).
Implicit Types (att : draco.PointAttribute float).

Lemma point_values_length att count : length (point_values att count) = count.
Proof. unfold point_values. rewrite length_fmap. apply length_seq. Qed.

Lemma point_values_lookup att count i :
  (i < count)%nat → point_values att count !! i = Some (point_value att i).
Proof.
  intros Hi. unfold point_values.
  rewrite list_lookup_fmap, lookup_seq_lt by done. reflexivity.
Qed.

(** A list of readable values is the image of a list of values. *)
Lemma Forall_is_Some_fmap {A} (l : list (option A)) :
  Forall is_Some l → ∃ k, l = Some <$> k.
Proof.
  induction 1 as [|o l [x ->] _ [k ->]].
  - by exists [].
  - by exists (x :: k).
Qed.

(** The loop over the points of an attribute whose values all read. *)
Lemma fill_rows_points att count (what : nat → string)
    (vs : list (float * float * float)) :
  point_values att count = Some <$> vs →
  fill_rows (float := float) 0 count
    (λ i, match draco.ConvertValue att (draco.mapped_index att i) with
          | None => throw (what i)
          | Some v => mret v
          end) = mret vs.
Proof.
  intros Hvs.
  assert (length vs = count) as <-.
  { rewrite <- (point_values_length att count), Hvs. by rewrite length_fmap. }
  apply fill_rows_lookup. intros i x Hi. rewrite Nat.add_0_l.
  assert (point_value att i = Some x) as Hx.
  { assert (point_values att (length vs) !! i = Some (Some x)) as Hl
      by (by rewrite Hvs, list_lookup_fmap, Hi).
    rewrite point_values_lookup in Hl by (by eapply lookup_lt_Some).
    congruence. }
  unfold point_value in Hx. rewrite Hx. reflexivity.
Qed.

Lemma fill_rows_faces (l : list draco.Face) :
  fill_rows (float := float) 0 (length l)
    (λ i, match l !! i with
          | None => undefined
          | Some face => mret face
          end) = mret l.
Proof.
  apply fill_rows_lookup. intros i x Hi. rewrite Nat.add_0_l, Hi. reflexivity.
Qed.

(** The extractor calls nothing that is logged. *)
Lemma extract_silent mesh : trace (extract mesh) = [].
Proof.
  unfold extract.
  destruct (draco.GetNamedAttribute draco.POSITION mesh) as [pa|];
    [|reflexivity].
  rewrite trace_bind, fill_rows_silent; cycle 1.
  { intros i. by destruct (draco.ConvertValue _ _). }
  destruct (result _) as [vs| | |]; try reflexivity.
  cbn [app]. rewrite trace_bind.
  assert (∀ (x : M float (normals_array_t float)), trace x = [] →
            trace x ++ match result x with
                       | Returned a =>
                           trace (fill_rows 0 (draco.num_faces mesh)
                                    (λ i, match draco.mesh_faces mesh !! i with
                                          | None => undefined
                                          | Some face => mret face
                                          end)
                                  ≫= λ faces, mret (vs, a, faces))
                       | _ => []
                       end = []) as Hrest.
  { intros x ->. destruct (result x); try reflexivity.
    cbn [app]. rewrite trace_bind, fill_rows_silent; cycle 1.
    { intros i. by destruct (_ !! i). }
    by destruct (result _). }
  apply Hrest.
  destruct (draco.GetNamedAttribute draco.NORMAL mesh) as [na|];
    [|reflexivity].
  destruct (0 <? draco.num_points mesh)%nat; [|reflexivity].
  apply fill_rows_silent. intros i. by destruct (draco.ConvertValue _ _).
Qed.

(** When every point reads, the extractor returns the three arrays: row
    [i] of an array is the value of point [i], through the mapping table. *)
Lemma extract_returns mesh pa :
  draco.GetNamedAttribute draco.POSITION mesh = Some pa →
  readable draco.POSITION mesh →
  readable draco.NORMAL mesh →
  ∃ vs ns : list (float * float * float),
    extract mesh = mret (vs, ns, draco.mesh_faces mesh) ∧
    Some <$> vs = point_values pa (draco.num_points mesh) ∧
    match draco.GetNamedAttribute draco.NORMAL mesh with
    | None => ns = []
    | Some na => Some <$> ns = point_values na (draco.num_points mesh)
    end.
Proof.
  intros Hpa Hrp Hrn. unfold readable in Hrp, Hrn. rewrite Hpa in Hrp.
  destruct (Forall_is_Some_fmap _ Hrp) as [vs Hvs].
  unfold extract. rewrite Hpa.
  rewrite (fill_rows_points pa _ _ vs Hvs), bind_mret.
  unfold draco.num_faces. rewrite fill_rows_faces.
  destruct (draco.GetNamedAttribute draco.NORMAL mesh) as [na|].
  - destruct (Forall_is_Some_fmap _ Hrn) as [ns Hns].
    exists vs, ns. split; [|by split].
    destruct (0 <? draco.num_points mesh)%nat eqn:Hp.
    + rewrite (fill_rows_points na _ _ ns Hns), !bind_mret. reflexivity.
    + apply Nat.ltb_ge in Hp.
      assert (draco.num_points mesh = 0%nat) as H0 by lia.
      rewrite H0 in Hns. destruct ns; [|discriminate].
      rewrite !bind_mret. reflexivity.
  - exists vs, []. split; [|by split].
    cbn [Nat.ltb Nat.leb]. rewrite !bind_mret. reflexivity.
Qed.

End Extract.

(** ** [decode_drc_bytes_to_faces], path by path *)

Section Decode.

Context {float : Type}.

Variable lib : draco.Library float.

Lemma decode_empty :
  decode_drc_bytes_to_faces lib [] = ([], Returned ([], [], [])).
Proof. reflexivity. Qed.

Lemma decode_unsupported buf :
  buf ≠ [] →
  draco.value (draco.GetEncodedGeometryType lib buf) ≠ draco.TRIANGULAR_MESH →
  decode_drc_bytes_to_faces lib buf =
  ([Decoder_GetEncodedGeometryType],
   Raised "Buffer does not appear to be a mesh file. (Is it a pointcloud?)").
Proof.
  intros Hne Hkind. unfold decode_drc_bytes_to_faces.
  destruct buf as [|b0 rest]; [done|]. cbn [length Nat.eqb].
  unfold GetEncodedGeometryType. rewrite fmap_invoke.
  apply bind_invoke_eq. cbn beta.
  rewrite bool_decide_eq_true_2 by done. reflexivity.
Qed.

Lemma decode_null buf :
  buf ≠ [] →
  draco.value (draco.GetEncodedGeometryType lib buf) = draco.TRIANGULAR_MESH →
  draco.value (draco.DecodeMeshFromBuffer lib buf) = None →
  decode_drc_bytes_to_faces lib buf =
  ([Decoder_GetEncodedGeometryType; Decoder_DecodeMeshFromBuffer], Undefined).
Proof.
  intros Hne Hkind Hnull. unfold decode_drc_bytes_to_faces.
  destruct buf as [|b0 rest]; [done|]. cbn [length Nat.eqb].
  unfold GetEncodedGeometryType, DecodeMeshFromBuffer. rewrite !fmap_invoke.
  apply bind_invoke_eq. cbn beta.
  rewrite bool_decide_eq_false_2 by (intros H; by apply H).
  apply bind_invoke_eq. cbn beta. rewrite Hnull. reflexivity.
Qed.

(** The path that decodes a mesh: deduplication, then the extractor. *)
Lemma decode_run buf received :
  buf ≠ [] →
  draco.value (draco.GetEncodedGeometryType lib buf) = draco.TRIANGULAR_MESH →
  draco.value (draco.DecodeMeshFromBuffer lib buf) = Some received →
  decode_drc_bytes_to_faces lib buf =
  ([Decoder_GetEncodedGeometryType; Decoder_DecodeMeshFromBuffer;
    Mesh_DeduplicateAttributeValues; Mesh_DeduplicatePointIds],
   result (extract (deduplicated lib received))).
Proof.
  intros Hne Hkind Hmesh. unfold decode_drc_bytes_to_faces.
  destruct buf as [|b0 rest]; [done|]. cbn [length Nat.eqb].
  unfold GetEncodedGeometryType, DecodeMeshFromBuffer,
    DeduplicateAttributeValues, DeduplicatePointIds. rewrite !fmap_invoke.
  apply bind_invoke_eq. cbn beta.
  rewrite bool_decide_eq_false_2 by (intros H; by apply H).
  apply bind_invoke_eq. cbn beta. rewrite Hmesh.
  do 2 (apply bind_invoke_eq; cbn beta).
  fold (deduplicated lib received).
  rewrite (pair_trace_result (extract _)) at 1.
  rewrite extract_silent. reflexivity.
Qed.

End Decode.

(** ** What the built mesh and the extracted arrays describe *)

Section Surface.

Context {float : Type}.

Implicit Types (vertices : vertices_array_t float).
Implicit Types (normals : normals_array_t float).
Implicit Types (faces : faces_array_t).

Lemma float_attribute_value t (values : list (float * float * float)) i :
  point_value (float_attribute t values) i = values !! i.
Proof.
  unfold point_value, draco.ConvertValue, draco.mapped_index. simpl.
  rewrite list_lookup_fmap. by destruct (values !! i).
Qed.

Lemma built_mesh_position vertices normals faces :
  draco.GetNamedAttribute draco.POSITION (built_mesh vertices normals faces) =
  Some (float_attribute draco.POSITION vertices).
Proof.
  reflexivity.
Qed.

Lemma built_mesh_normal vertices normals faces :
  draco.GetNamedAttribute draco.NORMAL (built_mesh vertices normals faces) =
  if (0 <? length normals)%nat
  then Some (float_attribute draco.NORMAL normals) else None.
Proof.
  unfold draco.GetNamedAttribute, built_mesh. simpl.
  destruct (0 <? length normals)%nat; reflexivity.
Qed.

(** The built mesh describes the input: at every corner, the row of the
    vertex array the face points at. *)
Lemma built_mesh_corners vertices normals faces :
  corner_values draco.POSITION (built_mesh vertices normals faces) =
  Some (corner_rows vertices faces).
Proof.
  unfold corner_values. rewrite built_mesh_position. simpl. f_equal.
  unfold corner_rows. apply list_fmap_ext. intros _ i _.
  unfold row. destruct (i <? 0); [reflexivity|].
  apply float_attribute_value.
Qed.

Lemma built_mesh_no_normals vertices faces :
  corner_values draco.NORMAL (built_mesh vertices [] faces) = None.
Proof. unfold corner_values. rewrite built_mesh_normal. reflexivity. Qed.

(** The extracted rows describe the mesh they were read from. *)
Lemma extracted_rows (att : draco.PointAttribute float) count
    (vs : list (float * float * float)) i :
  Some <$> vs = point_values att count →
  0 <= i < Z.of_nat count →
  row vs i = point_value att (Z.to_nat i).
Proof.
  intros Hvs Hi. unfold row.
  destruct (i <? 0) eqn:Hneg; [apply Z.ltb_lt in Hneg; lia|].
  assert ((Some <$> vs) !! Z.to_nat i = Some (point_value att (Z.to_nat i)))
    as Hl by (rewrite Hvs; apply point_values_lookup; lia).
  rewrite list_lookup_fmap in Hl.
  destruct (vs !! Z.to_nat i) as [x|]; simpl in Hl; congruence.
Qed.

Lemma extracted_corners (mesh : draco.Mesh float) att
    (vs : list (float * float * float)) :
  draco.GetNamedAttribute draco.POSITION mesh = Some att →
  Some <$> vs = point_values att (draco.num_points mesh) →
  faces_in_range mesh →
  corner_values draco.POSITION mesh =
  Some (corner_rows vs (draco.mesh_faces mesh)).
Proof.
  intros Hatt Hvs Hrange. unfold corner_values. rewrite Hatt. simpl. f_equal.
  unfold corner_rows. apply Forall_fmap_ext_1.
  eapply Forall_impl; [exact Hrange|]. intros i Hi. simpl in Hi.
  rewrite (extracted_rows att _ vs i Hvs Hi).
  destruct (i <? 0) eqn:Hneg; [apply Z.ltb_lt in Hneg; lia|reflexivity].
Qed.

Lemma corner_values_is_Some t (mesh : draco.Mesh float) l :
  corner_values t mesh = Some l →
  ∃ att, draco.GetNamedAttribute t mesh = Some att.
Proof.
  unfold corner_values. destruct (draco.GetNamedAttribute t mesh) as [att|].
  - eauto.
  - discriminate.
Qed.

Lemma corner_values_None t (mesh : draco.Mesh float) :
  corner_values t mesh = None → draco.GetNamedAttribute t mesh = None.
Proof.
  unfold corner_values. by destruct (draco.GetNamedAttribute t mesh).
Qed.

(** Rows without repetition: two faces point at the same row exactly when
    they point at equal rows. *)
Lemma row_inj (vs : list (float * float * float)) i j :
  NoDup vs → is_Some (row vs i) → row vs i = row vs j → i = j.
Proof.
  intros Hnd [x Hx] Heq. rewrite Hx in Heq. symmetry in Heq.
  unfold row in Hx, Heq.
  destruct (i <? 0) eqn:Hi; [discriminate|].
  destruct (j <? 0) eqn:Hj; [discriminate|].
  apply Z.ltb_ge in Hi, Hj.
  pose proof (NoDup_lookup _ _ _ _ Hnd Hx Heq). lia.
Qed.

End Surface.

(** ** Triangles, whatever the order of the faces *)

Section Triangles.

Context {float : Type}.

Implicit Types (vertices : vertices_array_t float).
Implicit Types (faces : faces_array_t).

Lemma same_triangles_refl {A} (l : list (A * A * A)) : same_triangles l l.
Proof.
  exists l. split; [reflexivity|].
  induction l; constructor; [by left|done].
Qed.












End Triangles.

(** ** Corner by corner, and face by face *)

Section OrderedSurface.

Context {float : Type}.

Lemma fmap_pair_eq {A A' B C} (f : A → B) (f' : A' → B) (h : A → C)
    (h' : A' → C) (l : list A) (l' : list A') :
  f <$> l = f' <$> l' → h <$> l = h' <$> l' →
  (λ x, (f x, h x)) <$> l = (λ x, (f' x, h' x)) <$> l'.
Proof.
  revert l'. induction l as [|x l IH]; intros [|x' l']; try done.
  rewrite !fmap_cons. intros [= Hf Hfs] [= Hh Hhs].
  by rewrite Hf, Hh, (IH l').
Qed.

Lemma elements_fmap_corners {B} (g g' : Z → B) (faces faces' : faces_array_t) :
  g <$> elements faces = g' <$> elements faces' →
  corners g <$> faces = corners g' <$> faces'.
Proof.
  revert faces'.
  induction faces as [|[[a b] c] rest IH]; intros [|[[a' b'] c'] rest'];
    try done.
  change (elements ((a, b, c) :: rest)) with (a :: b :: c :: elements rest).
  change (elements ((a', b', c') :: rest'))
    with (a' :: b' :: c' :: elements rest').
  rewrite !fmap_cons. intros [= Ha Hb Hc Hrest].
  simpl. by rewrite Ha, Hb, Hc, (IH rest').
Qed.

Lemma corner_data_values (mesh : draco.Mesh float) :
  corner_data mesh <$> elements (draco.mesh_faces mesh) =
  (λ i, (from_option
           (λ att, if i <? 0 then None else point_value att (Z.to_nat i))
           None (draco.GetNamedAttribute draco.POSITION mesh),
         from_option
           (λ att, if i <? 0 then None else point_value att (Z.to_nat i))
           None (draco.GetNamedAttribute draco.NORMAL mesh)))
    <$> elements (draco.mesh_faces mesh).
Proof.
  apply list_fmap_ext. intros _ i _. unfold corner_data, point_data.
  destruct (draco.GetNamedAttribute draco.POSITION mesh),
    (draco.GetNamedAttribute draco.NORMAL mesh), (i <? 0); reflexivity.
Qed.

Lemma fmap_const_eq {A A' B} (b : B) (f : A → B) (f' : A' → B)
    (l : list A) (l' : list A') :
  f <$> l = f' <$> l' → (λ _, b) <$> l = (λ _, b) <$> l'.
Proof.
  intros H. apply (f_equal length) in H. rewrite !length_fmap in H.
  revert l' H. induction l as [|x l IH]; intros [|x' l'] H; try done.
  rewrite !fmap_cons. f_equal. apply IH. simpl in H. lia.
Qed.

(** Meshes with positions that describe the same corners, corner by
    corner, describe the same triangles, face by face. *)
Lemma surface_mesh_triangles (mesh mesh' : draco.Mesh float) :
  is_Some (draco.GetNamedAttribute draco.POSITION mesh) →
  surface mesh' = surface mesh →
  carried mesh' = carried mesh ∧ mesh_triangles mesh' = mesh_triangles mesh.
Proof.
  intros [pa Hpa] Hs. unfold surface, corner_values in Hs.
  rewrite Hpa in Hs.
  destruct (draco.GetNamedAttribute draco.POSITION mesh') as [pa'|] eqn:Hpa';
    [|discriminate].
  destruct (draco.GetNamedAttribute draco.NORMAL mesh) as [na|] eqn:Hna,
    (draco.GetNamedAttribute draco.NORMAL mesh') as [na'|] eqn:Hna';
    try discriminate; simplify_eq/=.
  - split; [unfold carried; by rewrite Hpa, Hpa', Hna, Hna'|].
    apply elements_fmap_corners.
    rewrite !corner_data_values, Hpa, Hpa', Hna, Hna'. simpl.
    by apply fmap_pair_eq.
  - split; [unfold carried; by rewrite Hpa, Hpa', Hna, Hna'|].
    apply elements_fmap_corners.
    rewrite !corner_data_values, Hpa, Hpa', Hna, Hna'. simpl.
    apply fmap_pair_eq; [done|]. by eapply fmap_const_eq.
Qed.

Variable lib : draco.Library float.

(** A library that keeps the order of the faces and of their corners keeps
    the surface. *)
Lemma round_trip_contract_keeps_surface encoder (mesh : draco.Mesh float) :
  is_Some (draco.GetNamedAttribute draco.POSITION mesh) →
  round_trip_contract lib encoder mesh →
  surface_kept lib encoder mesh.
Proof.
  intros Hpos (Hsent & Hbuf & Hkind & received & Hdec & Hrecv & Hfinal
               & Hrp & Hrn & Hrange & Hdistinct).
  split; [done|]. split; [done|]. exists received. split; [done|].
  destruct (surface_mesh_triangles mesh (deduplicated lib received) Hpos)
    as [Hc Ht]; [congruence|].
  split; [done|]. split; [|done].
  rewrite Ht. apply same_triangles_refl.
Qed.

End OrderedSurface.

(** * The claims *)

Section RoundTrip.

Context {float : Type}.

Variable lib : draco.Library float.
Variable globals : Globals.
Variable NDEBUG : bool.

Implicit Types (vertices : vertices_array_t float).
Implicit Types (faces : faces_array_t).

Lemma valid_corners_exist vertices faces :
  Forall is_uint32 (elements faces) →
  face_index_in_range vertices faces →
  Forall is_Some (corner_rows vertices faces).
Proof.
  intros Hu Hr. apply valid_faces_below in Hr.
  unfold corner_rows. apply Forall_fmap.
  apply Forall_forall. intros i Hi. simpl.
  rewrite Forall_forall in Hu, Hr.
  specialize (Hu i Hi). specialize (Hr i Hi). unfold is_uint32 in Hu.
  unfold row. destruct (i <? 0) eqn:Hneg; [apply Z.ltb_lt in Hneg; lia|].
  apply lookup_lt_is_Some. lia.
Qed.

(** Arrays that describe the same corners, the second without repeated
    rows: corners that shared a row in the first share a row in the
    second. *)
Lemma shared_rows_stay_shared (vs vs' : list (float * float * float))
    faces faces' :
  corner_rows vs' faces' = corner_rows vs faces →
  Forall is_Some (corner_rows vs' faces') →
  NoDup vs' →
  ∀ a b,
    elements faces !! a = elements faces !! b →
    elements faces' !! a = elements faces' !! b.
Proof.
  intros Heq Hsome Hnd a b Hab.
  assert (length (elements faces') = length (elements faces)) as Hlen.
  { apply (f_equal length) in Heq. unfold corner_rows in Heq.
    by rewrite !length_fmap in Heq. }
  assert (∀ c, corner_rows vs' faces' !! c = corner_rows vs faces !! c)
    as Hat by (intros c; by rewrite Heq).
  unfold corner_rows in Hat. setoid_rewrite list_lookup_fmap in Hat.
  destruct (elements faces !! a) as [x|] eqn:Ha.
  - symmetry in Hab.
    destruct (elements faces' !! a) as [ia|] eqn:Ha';
      [|apply lookup_ge_None in Ha'; apply lookup_lt_Some in Ha; lia].
    destruct (elements faces' !! b) as [ib|] eqn:Hb';
      [|apply lookup_ge_None in Hb'; apply lookup_lt_Some in Hab; lia].
    pose proof (Hat a) as Hra. pose proof (Hat b) as Hrb.
    rewrite Ha, Ha' in Hra. rewrite Hab, Hb' in Hrb. simpl in Hra, Hrb.
    f_equal. apply (row_inj vs'); [done| |congruence].
    rewrite Forall_forall in Hsome. apply Hsome.
    unfold corner_rows. apply list_elem_of_fmap. exists ia. split; [done|].
    by eapply list_elem_of_lookup_2.
  - symmetry in Hab.
    apply lookup_ge_None in Ha, Hab.
    rewrite !lookup_ge_None_2 by lia. reflexivity.
Qed.

(** The round trip without normals through a library that keeps the order
    of the faces and of their corners ([round_trip_contract]): the arrays
    [decode_drc_bytes_to_faces] returns describe the input corner by
    corner.  Asked of consistent arrays with at least one face. *)
Theorem round_trip_without_normals vertices faces :
  faces ≠ [] →
  Forall is_uint32 (elements faces) →
  face_index_in_range vertices faces →
  round_trip_contract lib
    (draco.SetSpeedOptions (DRACO_SPEED globals) (DRACO_SPEED globals)
       draco.Encoder_new)
    (built_mesh vertices [] faces) →
  ∃ buf (vertices' : list (float * float * float)) faces',
    result (encode_faces_to_drc_bytes lib globals NDEBUG vertices [] faces)
      = Returned buf ∧
    result (decode_drc_bytes_to_faces lib buf)
      = Returned (vertices', [], faces') ∧
    length faces' = length faces ∧
    corner_rows vertices' faces' = corner_rows vertices faces ∧
    Forall is_Some (corner_rows vertices' faces') ∧
    NoDup vertices' ∧
    (∀ a b, elements faces !! a = elements faces !! b →
            elements faces' !! a = elements faces' !! b).
Proof.
  intros Hne Hu Hr
    (Hsent & Hbuf & Hkind & received & Hdec & Hrecv & Hfinal
     & Hrp & Hrn & Hrange & Hdistinct).
  set (encoder := draco.SetSpeedOptions _ _ _) in *.
  set (sent := deduplicated lib (built_mesh vertices [] faces)) in *.
  set (buf := snd (draco.EncodeMeshToBuffer lib encoder sent)) in *.
  set (final := deduplicated lib received) in *.
  (* the surface of the final mesh is the surface of the input *)
  assert (surface final = surface (built_mesh vertices [] faces)) as Hsurface
    by congruence.
  unfold surface in Hsurface.
  rewrite built_mesh_corners, built_mesh_no_normals in Hsurface.
  injection Hsurface as Hpos Hnorm.
  destruct (corner_values_is_Some _ _ _ Hpos) as [pa Hpa].
  apply corner_values_None in Hnorm.
  (* the extractor returns *)
  destruct (extract_returns final pa Hpa Hrp Hrn) as (vs & ns & Hex & Hvs & Hns).
  rewrite Hnorm in Hns. subst ns.
  assert (corner_rows vs (draco.mesh_faces final) = corner_rows vertices faces)
    as Hcorners.
  { rewrite (extracted_corners final pa vs Hpa Hvs Hrange) in Hpos.
    congruence. }
  assert (Forall is_Some (corner_rows vs (draco.mesh_faces final))) as Hsome.
  { rewrite Hcorners. by apply valid_corners_exist. }
  assert (NoDup vs) as Hnd.
  { unfold distinct_points in Hdistinct.
    apply (NoDup_fmap_1 Some). rewrite Hvs.
    apply (NoDup_fmap_1 (λ o, (o, None : option (float * float * float)))).
    unfold point_values. rewrite <- list_fmap_compose.
    erewrite list_fmap_ext; [exact Hdistinct|].
    intros _ i _. unfold point_data. simpl. rewrite Hpa, Hnorm. reflexivity. }
  exists buf, vs, (draco.mesh_faces final).
  split.
  { rewrite encode_run; [reflexivity|done| |reflexivity|].
    - by apply face_guard_valid.
    - right. by apply valid_faces_below. }
  split.
  { rewrite (decode_run lib buf received) by done.
    cbn [result snd]. fold final. rewrite Hex. reflexivity. }
  split.
  { apply (f_equal length) in Hcorners. unfold corner_rows in Hcorners.
    rewrite !length_fmap, !elements_length in Hcorners. lia. }
  split; [done|]. split; [done|]. split; [done|].
  by apply (shared_rows_stay_shared vertices vs).
Qed.



End RoundTrip.


Section Validation.

Context {float : Type}.

Variable lib : draco.Library float.
Variable globals : Globals.
Variable NDEBUG : bool.

Implicit Types (vertices : vertices_array_t float).
Implicit Types (normals : normals_array_t float).
Implicit Types (faces : faces_array_t).

(** X1 — Below [INT_MAX] the validation is the one the spec describes: a call
    with faces raises, before any call is made, exactly when one of the
    two invariants fails, and the message names the one that failed (the
    face indices first). *)
Lemma validation_below_INT_MAX vertices normals faces :
  faces ≠ [] →
  amax faces < 2 ^ 31 - 1 →
  (¬ face_index_in_range vertices faces →
   encode_faces_to_drc_bytes lib globals NDEBUG vertices normals faces =
   ([], Raised "Face indexes exceed vertices length")) ∧
  (face_index_in_range vertices faces →
   ¬ normal_count_consistent vertices normals →
   encode_faces_to_drc_bytes lib globals NDEBUG vertices normals faces =
   ([], Raised "normals array size does not correspond to vertices array size")) ∧
  (face_index_in_range vertices faces →
   normal_count_consistent vertices normals →
   ∃ buf,
     result (encode_faces_to_drc_bytes lib globals NDEBUG
               vertices normals faces) = Returned buf).
Proof.
  intros Hne Hsmall.
  pose proof (amax_nonneg faces) as H0.
  pose proof (face_guard_small vertices faces ltac:(lia)) as Hguard.
  assert (face_index_in_range vertices faces →
          face_guard vertices faces = false) as Hpass.
  { intros Hin. apply not_true_is_false. intros Hg. by apply Hguard in Hg. }
  split; [|split].
  - intros Hout. apply encode_face_error; [done|]. by apply Hguard.
  - intros Hin Hbad. apply encode_normal_error; [done|by apply Hpass|].
    by apply normal_guard_true.
  - intros Hin Hok. eexists.
    rewrite encode_run; [reflexivity|done|by apply Hpass| |].
    + by apply normal_guard_false.
    + right. by apply valid_faces_below.
Qed.

(** C2 — The validation of the face indices.  The maximum face index is
    converted to [int] before it is compared with the vertex count, so an
    index of 2^31 or more is read as a negative number.  At two vertices
    and the face (0, 1, 4294967295) the maximum face index is not below
    the vertex count, and yet no validation error is raised: with the
    assertions compiled out the call builds the mesh and returns what the
    encoder wrote; with the assertions compiled in the process is aborted
    by the assertion on the face, after the mesh was constructed. *)
Theorem face_index_wraps_past_the_guard (a b : float * float * float) :
  Forall is_uint32 (elements [(0, 1, 4294967295)]) ∧
  ¬ face_index_in_range [a; b] [(0, 1, 4294967295)] ∧
  encode_faces_to_drc_bytes lib globals true [a; b] [] [(0, 1, 4294967295)] =
    (build_log [a; b] [] [(0, 1, 4294967295)]
     ++ [Mesh_DeduplicateAttributeValues; Mesh_DeduplicatePointIds;
         Encoder_SetSpeedOptions (DRACO_SPEED globals) (DRACO_SPEED globals);
         Encoder_EncodeMeshToBuffer],
     Returned
       (snd (draco.EncodeMeshToBuffer lib
               (draco.SetSpeedOptions (DRACO_SPEED globals)
                  (DRACO_SPEED globals) draco.Encoder_new)
               (deduplicated lib
                  (built_mesh [a; b] [] [(0, 1, 4294967295)]))))) ∧
  encode_faces_to_drc_bytes lib globals false [a; b] [] [(0, 1, 4294967295)] =
    ([Mesh_ctor; Mesh_set_num_points 2; Mesh_SetNumFaces 1;
      Mesh_AddAttribute draco.POSITION 2;
      Mesh_SetAttributeElementType 0 draco.MESH_VERTEX_ATTRIBUTE;
      Attribute_SetAttributeValue 0 0 a; Attribute_SetAttributeValue 0 1 b],
     Aborted "face has an out-of-bounds vertex").
Proof.
  split; [|split; [|split]].
  - repeat (constructor; [unfold is_uint32; lia|]). constructor.
  - unfold face_index_in_range. vm_compute. discriminate.
  - apply encode_run; [done|reflexivity|reflexivity|by left].
  - reflexivity.
Qed.

End Validation.

Section ShortCircuits.

Context {float : Type}.

Variable lib : draco.Library float.
Variable globals : Globals.
Variable NDEBUG : bool.

Implicit Types (vertices : vertices_array_t float).
Implicit Types (normals : normals_array_t float).
Implicit Types (faces : faces_array_t).

(** C3 — Empty faces.  For every input whose face array has no row,
    [encode_faces_to_drc_bytes] returns a byte sequence of length zero and
    its log is empty: no mesh is constructed and the codec is not
    invoked. *)
Theorem encode_of_no_faces vertices normals faces :
  fst (shape faces) = 0%nat →
  ∃ buf,
    encode_faces_to_drc_bytes lib globals NDEBUG vertices normals faces =
      ([], Returned buf) ∧
    length buf = 0%nat.
Proof.
  intros Hshape. destruct faces as [|face rest]; [|discriminate].
  exists []. split; [apply encode_empty|reflexivity].
Qed.

(** C4 — Empty buffer.  Decoding a byte sequence of length zero returns
    three arrays of shape (0, 3), and the log is empty: the codec is not
    invoked. *)
Theorem decode_of_empty_buffer :
  ∃ (vertices : vertices_array_t float) (normals : normals_array_t float)
    (faces : faces_array_t),
    decode_drc_bytes_to_faces lib [] =
      ([], Returned (vertices, normals, faces)) ∧
    shape vertices = (0%nat, 3%nat) ∧
    shape normals = (0%nat, 3%nat) ∧
    shape faces = (0%nat, 3%nat).
Proof. exists [], [], []. repeat split. Qed.

(** C10 — The short circuit comes first.  When the normal count is neither
    zero nor the vertex count, a call without faces still returns the
    empty byte sequence and raises nothing, whereas every call with faces
    raises a validation error before any call is made. *)
Theorem empty_faces_before_validation vertices normals :
  ¬ normal_count_consistent vertices normals →
  encode_faces_to_drc_bytes lib globals NDEBUG vertices normals [] =
    ([], Returned []) ∧
  ∀ faces,
    faces ≠ [] →
    encode_faces_to_drc_bytes lib globals NDEBUG vertices normals faces =
      ([], Raised "Face indexes exceed vertices length") ∨
    encode_faces_to_drc_bytes lib globals NDEBUG vertices normals faces =
      ([], Raised "normals array size does not correspond to vertices array size").
Proof.
  intros Hbad. split; [apply encode_empty|].
  intros faces Hne.
  destruct (face_guard vertices faces) eqn:Hf.
  - left. by apply encode_face_error.
  - right. apply encode_normal_error; [done..|]. by apply normal_guard_true.
Qed.

End ShortCircuits.

Section Decoding.

Context {float : Type}.

Variable lib : draco.Library float.

(** C5 — Unsupported geometry.  For every buffer that is not empty and
    whose encoded geometry type is not the triangular mesh,
    [decode_drc_bytes_to_faces] raises the error about a buffer that is not
    a mesh; the query of the geometry type is the only call it made, so
    nothing was decoded, and no arrays are returned. *)
Theorem decode_of_another_geometry buf :
  buf ≠ [] →
  draco.value (draco.GetEncodedGeometryType lib buf) ≠ draco.TRIANGULAR_MESH →
  result (decode_drc_bytes_to_faces lib buf) =
    Raised "Buffer does not appear to be a mesh file. (Is it a pointcloud?)" ∧
  trace (decode_drc_bytes_to_faces lib buf) = [Decoder_GetEncodedGeometryType] ∧
  ∀ arrays, result (decode_drc_bytes_to_faces lib buf) ≠ Returned arrays.
Proof.
  intros Hne Hkind. rewrite decode_unsupported by done.
  split; [reflexivity|]. split; [reflexivity|].
  intros arrays. discriminate.
Qed.

(** C6 — Normals by point.  When the buffer decodes to a mesh whose points
    all read, [decode_drc_bytes_to_faces] returns; if the deduplicated mesh
    has a normal attribute, the normal array has one row per point (the
    point count, whatever the size of the value array of the attribute)
    and row [i] is the value the attribute gives point [i] through its
    mapping table; if it has none, the normal array is empty. *)
Theorem decode_normals_by_point buf received :
  buf ≠ [] →
  draco.value (draco.GetEncodedGeometryType lib buf) = draco.TRIANGULAR_MESH →
  draco.value (draco.DecodeMeshFromBuffer lib buf) = Some received →
  is_Some (draco.GetNamedAttribute draco.POSITION (deduplicated lib received)) →
  readable draco.POSITION (deduplicated lib received) →
  readable draco.NORMAL (deduplicated lib received) →
  ∃ (vertices normals : list (float * float * float)) faces,
    result (decode_drc_bytes_to_faces lib buf) =
      Returned (vertices, normals, faces) ∧
    match draco.GetNamedAttribute draco.NORMAL (deduplicated lib received) with
    | Some normal_att =>
        length normals = draco.num_points (deduplicated lib received) ∧
        ∀ i, (i < draco.num_points (deduplicated lib received))%nat →
             normals !! i =
             draco.ConvertValue normal_att (draco.mapped_index normal_att i)
    | None => normals = []
    end.
Proof.
  intros Hne Hkind Hdec [pa Hpa] Hrp Hrn.
  destruct (extract_returns _ pa Hpa Hrp Hrn) as (vs & ns & Hex & _ & Hns).
  exists vs, ns, (draco.mesh_faces (deduplicated lib received)).
  split.
  { rewrite (decode_run lib buf received) by done.
    cbn [result snd]. rewrite Hex. reflexivity. }
  destruct (draco.GetNamedAttribute draco.NORMAL _) as [na|]; [|done].
  split.
  - apply (f_equal length) in Hns.
    by rewrite length_fmap, point_values_length in Hns.
  - intros i Hi.
    assert ((Some <$> ns) !! i = Some (point_value na i)) as Hl
      by (rewrite Hns; by apply point_values_lookup).
    rewrite list_lookup_fmap in Hl. unfold point_value in Hl.
    destruct (ns !! i) as [x|]; simpl in Hl; congruence.
Qed.

(** A call whose log shows the decoder was handed a buffer that is not
    empty and classified as a triangular mesh. *)
Lemma decode_trace_decoded buf :
  Decoder_DecodeMeshFromBuffer ∈ trace (decode_drc_bytes_to_faces lib buf) →
  buf ≠ [] ∧
  draco.value (draco.GetEncodedGeometryType lib buf) = draco.TRIANGULAR_MESH.
Proof.
  intros Hin.
  destruct buf as [|b0 rest].
  { rewrite decode_empty in Hin. inversion Hin. }
  split; [done|].
  destruct (decide (draco.value (draco.GetEncodedGeometryType lib (b0 :: rest))
                    = draco.TRIANGULAR_MESH)) as [|Hkind]; [done|].
  rewrite decode_unsupported in Hin by done.
  cbn [trace fst] in Hin.
  apply list_elem_of_singleton in Hin. discriminate.
Qed.

End Decoding.

Section Order.

Context {float : Type}.

Variable lib : draco.Library float.
Variable globals : Globals.
Variable NDEBUG : bool.

Implicit Types (vertices : vertices_array_t float).
Implicit Types (normals : normals_array_t float).
Implicit Types (faces : faces_array_t).

Lemma building_calls (log : list (Call float)) :
  Forall is_building log →
  filter (λ c, is_deduplication c) log = [] ∧
  speeds_applied log = [] ∧
  reaches_encoder log = false.
Proof.
  induction 1 as [|c log Hc _ (IH1 & IH2 & IH3)]; [done|].
  unfold speeds_applied in *. rewrite bind_cons, IH2.
  rewrite filter_cons, IH1. cbn [reaches_encoder existsb].
  fold (reaches_encoder log). rewrite IH3.
  destruct c; try discriminate; done.
Qed.

Lemma build_log_building vertices normals faces :
  Forall is_building (build_log vertices normals faces).
Proof.
  pose proof (build_mesh_building true vertices normals faces) as H.
  rewrite (build_mesh_run true) in H by (by left). exact H.
Qed.

(** C7 (amended) — Deduplication, once, in between.  A call of
    [encode_faces_to_drc_bytes] that constructs a mesh (and is not aborted
    by a failed assertion) logs building calls from the construction of the mesh
    on, then the two deduplication calls, then the two calls on the
    encoder, and nothing else: the deduplication calls are the only ones in
    the log, and the encoder is handed the deduplicated mesh.  A call of
    [decode_drc_bytes_to_faces] to which the decoder hands a mesh logs the
    two calls on the decoder, then the two deduplication calls, and nothing
    else; what it returns is what the extractor makes of the deduplicated
    mesh. *)
Theorem deduplication_once_in_between vertices normals faces buf received :
  (Mesh_ctor ∈ trace (encode_faces_to_drc_bytes lib globals NDEBUG
                        vertices normals faces) →
   (∀ assertion,
      result (encode_faces_to_drc_bytes lib globals NDEBUG
                vertices normals faces) ≠ Aborted assertion) →
   ∃ building,
     trace (encode_faces_to_drc_bytes lib globals NDEBUG
              vertices normals faces) =
       building
       ++ [Mesh_DeduplicateAttributeValues; Mesh_DeduplicatePointIds]
       ++ [Encoder_SetSpeedOptions (DRACO_SPEED globals) (DRACO_SPEED globals);
           Encoder_EncodeMeshToBuffer] ∧
     head building = Some Mesh_ctor ∧
     Forall is_building building ∧
     filter (λ c, is_deduplication c)
       (trace (encode_faces_to_drc_bytes lib globals NDEBUG
                 vertices normals faces)) =
       [Mesh_DeduplicateAttributeValues; Mesh_DeduplicatePointIds] ∧
     result (encode_faces_to_drc_bytes lib globals NDEBUG
               vertices normals faces) =
       Returned
         (snd (draco.EncodeMeshToBuffer lib
                 (draco.SetSpeedOptions (DRACO_SPEED globals)
                    (DRACO_SPEED globals) draco.Encoder_new)
                 (deduplicated lib (built_mesh vertices normals faces))))) ∧
  (Decoder_DecodeMeshFromBuffer ∈ trace (decode_drc_bytes_to_faces lib buf) →
   draco.value (draco.DecodeMeshFromBuffer lib buf) = Some received →
   trace (decode_drc_bytes_to_faces lib buf) =
     [Decoder_GetEncodedGeometryType; Decoder_DecodeMeshFromBuffer]
     ++ [Mesh_DeduplicateAttributeValues; Mesh_DeduplicatePointIds] ∧
   filter (λ c, is_deduplication c) (trace (decode_drc_bytes_to_faces lib buf)) =
     [Mesh_DeduplicateAttributeValues; Mesh_DeduplicatePointIds] ∧
   result (decode_drc_bytes_to_faces lib buf) =
     result (extract (deduplicated lib received))).
Proof.
  split.
  - intros Hin Halive.
    destruct (encode_trace_passed _ _ _ _ _ _ _ Hin) as (Hne & Hf & Hn).
    assert (assertions_hold NDEBUG vertices faces) as Hassert.
    { destruct (decide (NDEBUG = true ∨
                        Forall (λ vi, vi < Z.of_nat (length vertices))
                               (elements faces))) as [Hok|Hbad]; [done|].
      destruct (Halive _ (encode_aborts lib globals NDEBUG _ _ _ Hne Hf Hn Hbad)). }
    exists (build_log vertices normals faces).
    rewrite encode_run by done. cbn [trace result fst snd].
    pose proof (build_log_building vertices normals faces) as Hb.
    split; [reflexivity|]. split; [reflexivity|]. split; [done|].
    split; [|reflexivity].
    rewrite filter_app. destruct (building_calls _ Hb) as (-> & _). reflexivity.
  - intros Hin Hdec.
    destruct (decode_trace_decoded _ _ Hin) as (Hne & Hkind).
    rewrite (decode_run lib buf received) by done. done.
Qed.

(** C8 (amended) — The speed is the variable of the process.  On every call
    of [encode_faces_to_drc_bytes] that reaches the encoder, the speed
    options set on the encoder are the value of [DRACO_SPEED], once as the
    encoding speed and once as the decoding speed; on the other calls no
    speed option is set.  [DRACO_SPEED] starts at 0. *)
Theorem speed_is_the_global_setting vertices normals faces :
  speeds_applied (trace (encode_faces_to_drc_bytes lib globals NDEBUG
                           vertices normals faces)) =
    (if reaches_encoder (trace (encode_faces_to_drc_bytes lib globals NDEBUG
                                  vertices normals faces))
     then [(DRACO_SPEED globals, DRACO_SPEED globals)] else []) ∧
  DRACO_SPEED initial_globals = 0.
Proof.
  split; [|reflexivity].
  destruct faces as [|face rest]; [reflexivity|].
  destruct (face_guard vertices (face :: rest)) eqn:Hf.
  { by rewrite encode_face_error. }
  destruct (normal_guard vertices normals) eqn:Hn.
  { by rewrite encode_normal_error. }
  rewrite encode_passed by done. rewrite trace_bind.
  pose proof (build_mesh_building NDEBUG vertices normals (face :: rest)) as Hb.
  destruct (building_calls _ Hb) as (_ & Hs & Hr).
  unfold speeds_applied in *. unfold reaches_encoder in *.
  rewrite bind_app, existsb_app, Hs, Hr.
  destruct (result _); reflexivity.
Qed.

(** C9 (amended) — The status of the codec is not consulted.  Both
    functions behave as if every call on the codec had reported success:
    replacing every status the library reports by [OK] changes neither the
    log nor the outcome of a call. *)
Theorem codec_status_is_not_consulted vertices normals faces buf :
  encode_faces_to_drc_bytes lib globals NDEBUG vertices normals faces =
    encode_faces_to_drc_bytes (forget_status lib) globals NDEBUG
      vertices normals faces ∧
  decode_drc_bytes_to_faces lib buf =
    decode_drc_bytes_to_faces (forget_status lib) buf.
Proof.
  split; [|reflexivity].
  destruct faces as [|face rest]; [reflexivity|].
  destruct (face_guard vertices (face :: rest)) eqn:Hf.
  { by rewrite !encode_face_error. }
  destruct (normal_guard vertices normals) eqn:Hn.
  { by rewrite !encode_normal_error. }
  rewrite !encode_passed by done. reflexivity.
Qed.

End Order.

(** * The claims on the reference library *)

(** The ordered round trip on the square, whose second triangle repeats a
    position of the first under another index, at speed 7. *)
Lemma round_trip_without_normals_witness :
  ∃ buf (vertices' : list (Z * Z * Z)) faces',
    result (encode_faces_to_drc_bytes reference.lib {| DRACO_SPEED := 7 |}
              false reference.square [] reference.square_faces)
      = Returned buf ∧
    result (decode_drc_bytes_to_faces reference.lib buf)
      = Returned (vertices', [], faces') ∧
    length faces' = length reference.square_faces ∧
    corner_rows vertices' faces'
      = corner_rows reference.square reference.square_faces ∧
    Forall is_Some (corner_rows vertices' faces') ∧
    NoDup vertices' ∧
    (∀ a b,
       elements reference.square_faces !! a
         = elements reference.square_faces !! b →
       elements faces' !! a = elements faces' !! b).
Proof.
  apply (round_trip_without_normals reference.lib {| DRACO_SPEED := 7 |} false
           reference.square reference.square_faces).
  - discriminate.
  - repeat (constructor; [unfold is_uint32; lia|]). constructor.
  - vm_compute. reflexivity.
  - unfold round_trip_contract.
    split; [vm_compute; reflexivity|].
    split; [vm_compute; discriminate|].
    split; [vm_compute; reflexivity|].
    eexists. split; [vm_compute; reflexivity|].
    split; [vm_compute; reflexivity|].
    split; [vm_compute; reflexivity|].
    split; [vm_compute; repeat constructor; eexists; reflexivity|].
    split; [vm_compute; exact I|].
    split; [vm_compute; repeat constructor; discriminate|].
    unfold distinct_points. apply (bool_decide_unpack _). vm_compute. exact I.
Defined.


(** What that round trip returns: the four positions of the square, and
    the two triangles in the reverse order. *)
Example reordered_square :
  ∃ buf,
    result (encode_faces_to_drc_bytes reference.reordering_lib
              {| DRACO_SPEED := 7 |} false reference.square []
              reference.square_faces) = Returned buf ∧
    result (decode_drc_bytes_to_faces reference.reordering_lib buf) =
      Returned
        ([(1065353216, 1065353216, 0); (0, 0, 0); (1065353216, 0, 0);
          (0, 1065353216, 0)],
         [],
         [(2, 3, 1); (2, 0, 1)]).
Proof. eexists. split; vm_compute; reflexivity. Qed.


(** A row no face refers to is lost as well: the square with a sixth row
    comes back from the reference library as the four positions of its
    corners. *)
Example unreferenced_vertex_is_not_returned :
  ∃ buf,
    result (encode_faces_to_drc_bytes reference.lib initial_globals false
              (reference.square ++ [(7, 7, 7)]) [] reference.square_faces)
      = Returned buf ∧
    result (decode_drc_bytes_to_faces reference.lib buf) =
      Returned
        ([(1065353216, 1065353216, 0); (0, 0, 0); (1065353216, 0, 0);
          (0, 1065353216, 0)],
         [],
         [(1, 2, 0); (1, 2, 3)]).
Proof. eexists. split; vm_compute; reflexivity. Qed.

(** C3 on the square without its faces. *)
Lemma encode_of_no_faces_witness :
  ∃ buf,
    encode_faces_to_drc_bytes reference.lib initial_globals false
      reference.square reference.square_normals [] = ([], Returned buf) ∧
    length buf = 0%nat.
Proof.
  apply (encode_of_no_faces reference.lib initial_globals false
           reference.square reference.square_normals []).
  reflexivity.
Defined.

(** C10 on the five rows of the square with a single normal. *)
Lemma empty_faces_before_validation_witness :
  encode_faces_to_drc_bytes reference.lib initial_globals false
    reference.square [(0, 0, 1065353216)] [] = ([], Returned []) ∧
  ∀ faces,
    faces ≠ [] →
    encode_faces_to_drc_bytes reference.lib initial_globals false
      reference.square [(0, 0, 1065353216)] faces =
      ([], Raised "Face indexes exceed vertices length") ∨
    encode_faces_to_drc_bytes reference.lib initial_globals false
      reference.square [(0, 0, 1065353216)] faces =
      ([], Raised "normals array size does not correspond to vertices array size").
Proof.
  apply (empty_faces_before_validation reference.lib initial_globals false
           reference.square [(0, 0, 1065353216)]).
  unfold normal_count_consistent. simpl. lia.
Defined.

(** C5 on a buffer that starts with the header of a point cloud. *)
Lemma decode_of_another_geometry_witness :
  result (decode_drc_bytes_to_faces reference.lib reference.point_cloud_buffer) =
    Raised "Buffer does not appear to be a mesh file. (Is it a pointcloud?)" ∧
  trace (decode_drc_bytes_to_faces reference.lib reference.point_cloud_buffer) =
    [Decoder_GetEncodedGeometryType] ∧
  ∀ arrays,
    result (decode_drc_bytes_to_faces reference.lib reference.point_cloud_buffer)
    ≠ Returned arrays.
Proof.
  apply (decode_of_another_geometry reference.lib reference.point_cloud_buffer).
  - vm_compute. discriminate.
  - vm_compute. discriminate.
Defined.

(** C6 on the buffer the reference encoder writes for the square with its
    normals. *)
Lemma decode_normals_by_point_witness :
  ∃ (vertices normals : list (Z * Z * Z)) faces,
    result (decode_drc_bytes_to_faces reference.lib reference.square_buffer) =
      Returned (vertices, normals, faces) ∧
    match draco.GetNamedAttribute draco.NORMAL
            (deduplicated reference.lib reference.square_received) with
    | Some normal_att =>
        length normals =
          draco.num_points
            (deduplicated reference.lib reference.square_received) ∧
        ∀ i, (i < draco.num_points
                     (deduplicated reference.lib reference.square_received))%nat →
             normals !! i =
             draco.ConvertValue normal_att (draco.mapped_index normal_att i)
    | None => normals = []
    end.
Proof.
  apply (decode_normals_by_point reference.lib reference.square_buffer
           reference.square_received).
  - vm_compute. discriminate.
  - vm_compute. reflexivity.
  - vm_compute. reflexivity.
  - vm_compute. eexists. reflexivity.
  - vm_compute. repeat constructor; eexists; reflexivity.
  - vm_compute. repeat constructor; eexists; reflexivity.
Defined.

(** On the square, the deduplicated mesh has four points and its normal
    attribute holds a single value; the normal array has four rows. *)
Example normals_outnumber_their_slots :
  draco.num_points (deduplicated reference.lib reference.square_received)
    = 4%nat ∧
  (length ∘ draco.att_buffer
     <$> draco.GetNamedAttribute draco.NORMAL
           (deduplicated reference.lib reference.square_received))
    = Some 1%nat ∧
  result (decode_drc_bytes_to_faces reference.lib reference.square_buffer) =
    Returned
      ([(1065353216, 1065353216, 0); (0, 0, 0); (1065353216, 0, 0);
        (0, 1065353216, 0)],
       replicate 4 (0, 0, 1065353216),
       [(1, 2, 0); (1, 2, 3)]).
Proof. vm_compute. repeat split. Qed.

(** C7 (amended) on the square with its normals and on the buffer encoded
    from it. *)
Lemma deduplication_once_in_between_witness :
  (∃ building,
     trace (encode_faces_to_drc_bytes reference.lib initial_globals false
              reference.square reference.square_normals
              reference.square_faces) =
       building
       ++ [Mesh_DeduplicateAttributeValues; Mesh_DeduplicatePointIds]
       ++ [Encoder_SetSpeedOptions 0 0; Encoder_EncodeMeshToBuffer] ∧
     head building = Some Mesh_ctor ∧
     Forall is_building building ∧
     filter (λ c, is_deduplication c)
       (trace (encode_faces_to_drc_bytes reference.lib initial_globals false
                 reference.square reference.square_normals
                 reference.square_faces)) =
       [Mesh_DeduplicateAttributeValues; Mesh_DeduplicatePointIds] ∧
     result (encode_faces_to_drc_bytes reference.lib initial_globals false
               reference.square reference.square_normals
               reference.square_faces) =
       Returned
         (snd (draco.EncodeMeshToBuffer reference.lib
                 (draco.SetSpeedOptions 0 0 draco.Encoder_new)
                 (deduplicated reference.lib
                    (built_mesh reference.square reference.square_normals
                       reference.square_faces))))) ∧
  (trace (decode_drc_bytes_to_faces reference.lib reference.square_buffer) =
     [Decoder_GetEncodedGeometryType; Decoder_DecodeMeshFromBuffer]
     ++ [Mesh_DeduplicateAttributeValues; Mesh_DeduplicatePointIds] ∧
   filter (λ c, is_deduplication c)
     (trace (decode_drc_bytes_to_faces reference.lib reference.square_buffer)) =
     [Mesh_DeduplicateAttributeValues; Mesh_DeduplicatePointIds] ∧
   result (decode_drc_bytes_to_faces reference.lib reference.square_buffer) =
     result (extract (deduplicated reference.lib reference.square_received))).
Proof.
  destruct (deduplication_once_in_between reference.lib initial_globals false
              reference.square reference.square_normals reference.square_faces
              reference.square_buffer reference.square_received)
    as [Hencode Hdecode].
  split.
  - apply Hencode.
    + vm_compute. apply list_elem_of_here.
    + vm_compute. intros assertion. discriminate.
  - apply Hdecode.
    + vm_compute. apply list_elem_of_further, list_elem_of_here.
    + vm_compute. reflexivity.
Defined.

(** C7 — A call that reaches the codec and does not deduplicate.  On a
    buffer that starts with the header of a point cloud,
    [decode_drc_bytes_to_faces] asks the decoder for the geometry type and
    raises: the one call it makes is a call of the codec, and there is no
    deduplication after it. *)
Lemma codec_reached_without_deduplication :
  trace (decode_drc_bytes_to_faces reference.lib reference.point_cloud_buffer) =
    [Decoder_GetEncodedGeometryType] ∧
  filter (λ c, is_deduplication c)
    (trace (decode_drc_bytes_to_faces reference.lib
              reference.point_cloud_buffer)) = [] ∧
  result (decode_drc_bytes_to_faces reference.lib reference.point_cloud_buffer) =
    Raised "Buffer does not appear to be a mesh file. (Is it a pointcloud?)".
Proof. repeat split. Qed.

(** C8 — The speed is not an argument of the call: the same vertices,
    normals and faces are encoded at speed 0 or at speed 7 according to
    the value [DRACO_SPEED] has when the call is made. *)
Lemma speed_is_not_a_call_argument :
  speeds_applied
    (trace (encode_faces_to_drc_bytes reference.lib {| DRACO_SPEED := 0 |}
              false reference.square [] reference.square_faces)) = [(0, 0)] ∧
  speeds_applied
    (trace (encode_faces_to_drc_bytes reference.lib {| DRACO_SPEED := 7 |}
              false reference.square [] reference.square_faces)) = [(7, 7)].
Proof. split; vm_compute; reflexivity. Qed.

(** C9 — A failure of the encoder is not reported: on the square, which is
    a consistent input, the encoder of [reference.failing_lib] reports an
    error after it wrote the header, and the call returns the header. *)
Lemma failed_encoder_is_not_reported :
  face_index_in_range reference.square reference.square_faces ∧
  fst (draco.EncodeMeshToBuffer reference.failing_lib
         (draco.SetSpeedOptions 0 0 draco.Encoder_new)
         (deduplicated reference.failing_lib
            (built_mesh reference.square [] reference.square_faces))) =
    draco.DRACO_ERROR "Failed to encode the mesh." ∧
  result (encode_faces_to_drc_bytes reference.failing_lib initial_globals false
            reference.square [] reference.square_faces) =
    Returned (reference.magic ++ [x01]).
Proof. repeat split. Qed.

(** * Further properties of the two functions *)

(** ** Loops that stop at an unreadable value *)

Section Unreadable.

Context {float : Type}.

Implicit Types (mesh : draco.Mesh float).
Implicit Types (att : draco.PointAttribute float).

(** A loop that fills an array stops at the first index whose value does
    not read, with the message of that index. *)
Lemma fill_rows_raises {A} (g : nat → option A) (what : nat → string) count :
  ∀ from k,
    (from ≤ k < from + count)%nat →
    (∀ j, (from ≤ j < k)%nat → is_Some (g j)) →
    g k = None →
    fill_rows (float := float) from count
      (λ i, match g i with
            | None => throw (what i)
            | Some v => mret v
            end) = ([], Raised (what k)).
Proof.
  induction count as [|count IH]; intros from k Hk Hbefore Hnone; [lia|].
  rewrite fill_rows_S.
  destruct (decide (k = from)) as [->|Hne].
  - rewrite Hnone. reflexivity.
  - destruct (Hbefore from ltac:(lia)) as [v Hv]. rewrite Hv, bind_mret.
    rewrite (IH (S from) k); [reflexivity|lia| |done].
    intros j Hj. apply Hbefore. lia.
Qed.

(** Among values that do not all read there is a first that does not. *)
Lemma first_unreadable {A} (g : nat → option A) count :
  ¬ Forall is_Some (g <$> seq 0 count) →
  ∃ k, (k < count)%nat ∧ g k = None ∧ ∀ j, (j < k)%nat → is_Some (g j).
Proof.
  induction count as [|count IH]; intros Hbad.
  - destruct Hbad. constructor.
  - destruct (decide (Forall is_Some (g <$> seq 0 count))) as [Hall|Hnot].
    + exists count. split; [lia|]. split.
      * destruct (g count) as [v|] eqn:Hg; [|done].
        destruct Hbad. rewrite seq_S, fmap_app. apply Forall_app.
        split; [done|]. cbn. rewrite Hg. repeat constructor. by eexists.
      * intros j Hj. rewrite Forall_fmap, Forall_forall in Hall.
        apply (Hall j). apply elem_of_seq. lia.
    + destruct (IH Hnot) as (k & Hk & Hnone & Hbefore).
      exists k. split; [lia|done].
Qed.

Lemma extract_no_positions mesh :
  draco.GetNamedAttribute draco.POSITION mesh = None →
  extract mesh = ([], Raised "Draco mesh appears to have no vertices.").
Proof. intros Hnone. unfold extract. rewrite Hnone. reflexivity. Qed.

Lemma extract_vertex_error mesh pa k :
  draco.GetNamedAttribute draco.POSITION mesh = Some pa →
  (k < draco.num_points mesh)%nat →
  (∀ j, (j < k)%nat → is_Some (point_value pa j)) →
  point_value pa k = None →
  extract mesh = ([], Raised ("Error reading vertex " +:+ pretty k +:+ endl)).
Proof.
  intros Hpa Hk Hbefore Hnone. unfold extract. rewrite Hpa.
  rewrite (fill_rows_raises (point_value pa)
             (λ i, "Error reading vertex " +:+ pretty i +:+ endl)
             _ 0 k); [reflexivity|lia| |done].
  intros j Hj. apply Hbefore. lia.
Qed.

Lemma extract_normal_error mesh pa na k :
  draco.GetNamedAttribute draco.POSITION mesh = Some pa →
  draco.GetNamedAttribute draco.NORMAL mesh = Some na →
  readable draco.POSITION mesh →
  (k < draco.num_points mesh)%nat →
  (∀ j, (j < k)%nat → is_Some (point_value na j)) →
  point_value na k = None →
  extract mesh =
  ([], Raised ("Error reading normal for point " +:+ pretty k +:+ endl)).
Proof.
  intros Hpa Hna Hrp Hk Hbefore Hnone.
  unfold readable in Hrp. rewrite Hpa in Hrp.
  destruct (Forall_is_Some_fmap _ Hrp) as [vs Hvs].
  unfold extract. rewrite Hpa, Hna.
  rewrite (fill_rows_points pa _ _ vs Hvs), bind_mret.
  assert ((0 <? draco.num_points mesh)%nat = true) as ->
    by (apply Nat.ltb_lt; lia).
  rewrite (fill_rows_raises (point_value na)
             (λ i, "Error reading normal for point " +:+ pretty i +:+ endl)
             _ 0 k); [reflexivity|lia| |done].
  intros j Hj. apply Hbefore. lia.
Qed.

End Unreadable.

(** ** More on [decode_drc_bytes_to_faces] *)

Section DecodeMore.

Context {float : Type}.

Variable lib : draco.Library float.

(** X8 — A decoded mesh without positions.  When the deduplicated mesh
    has no position attribute, [decode_drc_bytes_to_faces] raises the
    error about a mesh without vertices, whatever else the mesh holds;
    the two calls on the decoder and the two deduplication calls were
    made. *)
Theorem decode_without_positions buf received :
  buf ≠ [] →
  draco.value (draco.GetEncodedGeometryType lib buf) = draco.TRIANGULAR_MESH →
  draco.value (draco.DecodeMeshFromBuffer lib buf) = Some received →
  draco.GetNamedAttribute draco.POSITION (deduplicated lib received) = None →
  decode_drc_bytes_to_faces lib buf =
    ([Decoder_GetEncodedGeometryType; Decoder_DecodeMeshFromBuffer;
      Mesh_DeduplicateAttributeValues; Mesh_DeduplicatePointIds],
     Raised "Draco mesh appears to have no vertices.").
Proof.
  intros Hne Hkind Hdec Hnone.
  rewrite (decode_run lib buf received) by done.
  rewrite extract_no_positions by done. reflexivity.
Qed.

(** X9 — A position that does not read.  When point [k] is the first point
    of the deduplicated mesh whose position cannot be read as three floats,
    [decode_drc_bytes_to_faces] raises the error that names vertex [k];
    no array is returned, not even the rows read before [k]. *)
Theorem decode_unreadable_vertex buf received position_att k :
  buf ≠ [] →
  draco.value (draco.GetEncodedGeometryType lib buf) = draco.TRIANGULAR_MESH →
  draco.value (draco.DecodeMeshFromBuffer lib buf) = Some received →
  draco.GetNamedAttribute draco.POSITION (deduplicated lib received)
    = Some position_att →
  (k < draco.num_points (deduplicated lib received))%nat →
  (∀ j, (j < k)%nat →
        is_Some (draco.ConvertValue position_att
                   (draco.mapped_index position_att j))) →
  draco.ConvertValue position_att (draco.mapped_index position_att k) = None →
  result (decode_drc_bytes_to_faces lib buf) =
    Raised ("Error reading vertex " +:+ pretty k +:+ endl).
Proof.
  intros Hne Hkind Hdec Hpa Hk Hbefore Hnone.
  rewrite (decode_run lib buf received) by done. cbn [result snd].
  rewrite (extract_vertex_error _ position_att k) by done. reflexivity.
Qed.

(** X10 — A normal that does not read.  When every position reads and
    point [k] is the first point of the deduplicated mesh whose normal
    cannot be read as three floats, [decode_drc_bytes_to_faces] raises the
    error that names point [k]: the vertices that were read are not
    returned. *)
Theorem decode_unreadable_normal buf received position_att normal_att k :
  buf ≠ [] →
  draco.value (draco.GetEncodedGeometryType lib buf) = draco.TRIANGULAR_MESH →
  draco.value (draco.DecodeMeshFromBuffer lib buf) = Some received →
  draco.GetNamedAttribute draco.POSITION (deduplicated lib received)
    = Some position_att →
  draco.GetNamedAttribute draco.NORMAL (deduplicated lib received)
    = Some normal_att →
  readable draco.POSITION (deduplicated lib received) →
  (k < draco.num_points (deduplicated lib received))%nat →
  (∀ j, (j < k)%nat →
        is_Some (draco.ConvertValue normal_att
                   (draco.mapped_index normal_att j))) →
  draco.ConvertValue normal_att (draco.mapped_index normal_att k) = None →
  result (decode_drc_bytes_to_faces lib buf) =
    Raised ("Error reading normal for point " +:+ pretty k +:+ endl).
Proof.
  intros Hne Hkind Hdec Hpa Hna Hrp Hk Hbefore Hnone.
  rewrite (decode_run lib buf received) by done. cbn [result snd].
  rewrite (extract_normal_error _ position_att normal_att k) by done.
  reflexivity.
Qed.

(** X11 — Vertices and faces as the mesh has them.  When the buffer decodes
    to a mesh whose points all read, the vertex array returned has one row
    per point of the deduplicated mesh, row [i] being the position of
    point [i] through the mapping table of the position attribute, and
    the face array is the face list of that mesh, face by face with the
    three indices in their order. *)
Theorem decode_vertices_and_faces buf received :
  buf ≠ [] →
  draco.value (draco.GetEncodedGeometryType lib buf) = draco.TRIANGULAR_MESH →
  draco.value (draco.DecodeMeshFromBuffer lib buf) = Some received →
  is_Some (draco.GetNamedAttribute draco.POSITION (deduplicated lib received)) →
  readable draco.POSITION (deduplicated lib received) →
  readable draco.NORMAL (deduplicated lib received) →
  ∃ (vertices normals : list (float * float * float)) faces position_att,
    result (decode_drc_bytes_to_faces lib buf) =
      Returned (vertices, normals, faces) ∧
    draco.GetNamedAttribute draco.POSITION (deduplicated lib received)
      = Some position_att ∧
    length vertices = draco.num_points (deduplicated lib received) ∧
    (∀ i, (i < draco.num_points (deduplicated lib received))%nat →
          vertices !! i =
          draco.ConvertValue position_att
            (draco.mapped_index position_att i)) ∧
    faces = draco.mesh_faces (deduplicated lib received) ∧
    shape faces = (draco.num_faces (deduplicated lib received), 3%nat).
Proof.
  intros Hne Hkind Hdec [position_att Hpa] Hrp Hrn.
  destruct (extract_returns _ position_att Hpa Hrp Hrn)
    as (vs & ns & Hex & Hvs & _).
  exists vs, ns, (draco.mesh_faces (deduplicated lib received)), position_att.
  split.
  { rewrite (decode_run lib buf received) by done.
    cbn [result snd]. rewrite Hex. reflexivity. }
  split; [done|]. split.
  { apply (f_equal length) in Hvs.
    by rewrite length_fmap, point_values_length in Hvs. }
  split; [|done].
  intros i Hi.
  assert ((Some <$> vs) !! i = Some (point_value position_att i)) as Hl
    by (rewrite Hvs; by apply point_values_lookup).
  rewrite list_lookup_fmap in Hl. unfold point_value in Hl.
  destruct (vs !! i) as [x|]; simpl in Hl; congruence.
Qed.

(** X12 — The errors of decoding.  Whenever [decode_drc_bytes_to_faces]
    raises, the buffer is not empty and the error is one of four: the
    buffer is not classified as a triangular mesh; or the decoder handed
    out a mesh that, once deduplicated, has no position attribute; or it
    has a point, named in the message, whose position, or whose normal,
    does not read. *)
Theorem decode_raises_only buf what :
  result (decode_drc_bytes_to_faces lib buf) = Raised what →
  buf ≠ [] ∧
  ((what = "Buffer does not appear to be a mesh file. (Is it a pointcloud?)" ∧
    draco.value (draco.GetEncodedGeometryType lib buf)
      ≠ draco.TRIANGULAR_MESH) ∨
   ∃ received,
     draco.value (draco.GetEncodedGeometryType lib buf)
       = draco.TRIANGULAR_MESH ∧
     draco.value (draco.DecodeMeshFromBuffer lib buf) = Some received ∧
     ((what = "Draco mesh appears to have no vertices." ∧
       draco.GetNamedAttribute draco.POSITION (deduplicated lib received)
         = None) ∨
      ∃ k att,
        (k < draco.num_points (deduplicated lib received))%nat ∧
        draco.ConvertValue att (draco.mapped_index att k) = None ∧
        ((what = "Error reading vertex " +:+ pretty k +:+ endl ∧
          draco.GetNamedAttribute draco.POSITION (deduplicated lib received)
            = Some att) ∨
         (what = "Error reading normal for point " +:+ pretty k +:+ endl ∧
          draco.GetNamedAttribute draco.NORMAL (deduplicated lib received)
            = Some att)))).
Proof.
  intros Hraised.
  destruct (decide (buf = [])) as [->|Hne]; [discriminate|].
  split; [done|].
  destruct (decide (draco.value (draco.GetEncodedGeometryType lib buf)
                    = draco.TRIANGULAR_MESH)) as [Hkind|Hkind]; cycle 1.
  { left. rewrite decode_unsupported in Hraised by done.
    cbn [result snd] in Hraised. split; [congruence|done]. }
  right.
  destruct (draco.value (draco.DecodeMeshFromBuffer lib buf))
    as [received|] eqn:Hdec; cycle 1.
  { rewrite decode_null in Hraised by done. discriminate. }
  exists received. split; [done|]. split; [done|].
  rewrite (decode_run lib buf received) in Hraised by done.
  cbn [result snd] in Hraised.
  set (mesh := deduplicated lib received) in *.
  destruct (draco.GetNamedAttribute draco.POSITION mesh) as [pa|] eqn:Hpa;
    cycle 1.
  { left. rewrite extract_no_positions in Hraised by done.
    cbn [result snd] in Hraised. split; [congruence|done]. }
  right.
  destruct (decide (Forall is_Some (point_values pa (draco.num_points mesh))))
    as [Hrp|Hrp]; cycle 1.
  { destruct (first_unreadable _ _ Hrp) as (k & Hk & Hnone & Hbefore).
    rewrite (extract_vertex_error mesh pa k) in Hraised by done.
    cbn [result snd] in Hraised.
    exists k, pa. split; [done|]. split; [done|]. left. split; congruence. }
  assert (readable draco.POSITION mesh) as Hreadable
    by (unfold readable; by rewrite Hpa).
  destruct (draco.GetNamedAttribute draco.NORMAL mesh) as [na|] eqn:Hna;
    cycle 1.
  { destruct (extract_returns mesh pa Hpa Hreadable) as (vs & ns & Hex & _).
    { unfold readable. by rewrite Hna. }
    rewrite Hex in Hraised. discriminate. }
  destruct (decide (Forall is_Some (point_values na (draco.num_points mesh))))
    as [Hrn|Hrn].
  { destruct (extract_returns mesh pa Hpa Hreadable) as (vs & ns & Hex & _).
    { unfold readable. by rewrite Hna. }
    rewrite Hex in Hraised. discriminate. }
  destruct (first_unreadable _ _ Hrn) as (k & Hk & Hnone & Hbefore).
  rewrite (extract_normal_error mesh pa na k) in Hraised by done.
  cbn [result snd] in Hraised.
  exists k, na. split; [done|]. split; [done|]. right. split; congruence.
Qed.

(** X13 — A decoder that hands out no mesh.  When the buffer is classified
    as a triangular mesh and the decoder hands out a null pointer,
    [decode_drc_bytes_to_faces] dereferences it: the call neither returns
    arrays nor raises an error, and no deduplication call is made. *)
Theorem decode_of_null_mesh buf :
  buf ≠ [] →
  draco.value (draco.GetEncodedGeometryType lib buf) = draco.TRIANGULAR_MESH →
  draco.value (draco.DecodeMeshFromBuffer lib buf) = None →
  result (decode_drc_bytes_to_faces lib buf) = Undefined ∧
  trace (decode_drc_bytes_to_faces lib buf) =
    [Decoder_GetEncodedGeometryType; Decoder_DecodeMeshFromBuffer] ∧
  (∀ arrays, result (decode_drc_bytes_to_faces lib buf) ≠ Returned arrays) ∧
  (∀ what, result (decode_drc_bytes_to_faces lib buf) ≠ Raised what).
Proof.
  intros Hne Hkind Hnull. rewrite decode_null by done.
  repeat split; intros; discriminate.
Qed.

End DecodeMore.

(** ** More on [encode_faces_to_drc_bytes] *)

Section EncodeMore.

Context {float : Type}.

Variable lib : draco.Library float.
Variable globals : Globals.
Variable NDEBUG : bool.

Implicit Types (vertices : vertices_array_t float).
Implicit Types (normals : normals_array_t float).
Implicit Types (faces : faces_array_t).

(** X2 — A consistent input is never rejected.  For every input with faces
    whose face indices are below the vertex count and whose normal count
    is zero or the vertex count, no error is raised and no assertion
    fails, also when the indices reach 2^31 and more: the call builds the
    mesh, deduplicates it, and returns what the encoder wrote for it. *)
Theorem consistent_input_is_encoded vertices normals faces :
  faces ≠ [] →
  Forall is_uint32 (elements faces) →
  face_index_in_range vertices faces →
  normal_count_consistent vertices normals →
  encode_faces_to_drc_bytes lib globals NDEBUG vertices normals faces =
    (build_log vertices normals faces
     ++ [Mesh_DeduplicateAttributeValues; Mesh_DeduplicatePointIds;
         Encoder_SetSpeedOptions (DRACO_SPEED globals) (DRACO_SPEED globals);
         Encoder_EncodeMeshToBuffer],
     Returned
       (snd (draco.EncodeMeshToBuffer lib
               (draco.SetSpeedOptions (DRACO_SPEED globals)
                  (DRACO_SPEED globals) draco.Encoder_new)
               (deduplicated lib (built_mesh vertices normals faces))))).
Proof.
  intros Hne Hu Hr Hn. apply encode_run; [done| | |].
  - by apply face_guard_valid.
  - by apply normal_guard_false.
  - right. by apply valid_faces_below.
Qed.

(** X3 — The errors of encoding.  Whenever [encode_faces_to_drc_bytes]
    raises, the faces array is not empty, no call was made (no mesh exists)
    and the error is one of the two validation errors: the one on the face
    indices when the first guard holds, else the one on the normals, the
    normal count being neither zero nor the vertex count. *)
Theorem encode_raises_only_validation vertices normals faces what :
  result (encode_faces_to_drc_bytes lib globals NDEBUG vertices normals faces)
    = Raised what →
  trace (encode_faces_to_drc_bytes lib globals NDEBUG vertices normals faces)
    = [] ∧
  faces ≠ [] ∧
  ((what = "Face indexes exceed vertices length" ∧
    face_guard vertices faces = true) ∨
   (what = "normals array size does not correspond to vertices array size" ∧
    face_guard vertices faces = false ∧
    ¬ normal_count_consistent vertices normals)).
Proof.
  intros Hraised.
  destruct (encode_cases lib globals NDEBUG vertices normals faces)
    as [(_ & Hcall)|[(Hne & Hf & Hcall)|[(Hne & Hf & Hn & Hcall)|
        [(_ & _ & _ & _ & buf & Hcall)|(_ & _ & _ & _ & Hcall)]]]];
    rewrite Hcall in Hraised; try discriminate.
  - rewrite Hcall. cbn [result snd] in Hraised.
    split; [done|]. split; [done|]. left. split; congruence.
  - rewrite Hcall. cbn [result snd] in Hraised.
    split; [done|]. split; [done|]. right.
    split; [congruence|]. split; [done|]. by apply normal_guard_true.
Qed.

(** X4 — Assertions compiled in.  In a build with assertions, a call whose
    faces array holds an index that is not below the vertex count never
    reaches deduplication nor the encoder and returns nothing: it is
    stopped by the guard on the face indices or by the guard on the
    normals, or the assertion on the face aborts it. *)
Theorem out_of_range_face_is_never_encoded vertices normals faces :
  ¬ Forall (λ vi, vi < Z.of_nat (length vertices)) (elements faces) →
  filter (λ c, is_deduplication c)
    (trace (encode_faces_to_drc_bytes lib globals false
              vertices normals faces)) = [] ∧
  reaches_encoder
    (trace (encode_faces_to_drc_bytes lib globals false
              vertices normals faces)) = false ∧
  ∀ buf,
    result (encode_faces_to_drc_bytes lib globals false
              vertices normals faces) ≠ Returned buf.
Proof.
  intros Hbad.
  assert (¬ assertions_hold false vertices faces) as Hassert
    by (intros [?|?]; done).
  destruct (encode_cases lib globals false vertices normals faces)
    as [(-> & _)|[(_ & _ & Hcall)|[(_ & _ & _ & Hcall)|
        [(_ & _ & _ & Hok & _)|(Hne & Hf & Hn & _ & Hcall)]]]].
  - destruct Hbad. constructor.
  - rewrite Hcall. repeat split. intros buf. discriminate.
  - rewrite Hcall. repeat split. intros buf. discriminate.
  - done.
  - assert (trace (encode_faces_to_drc_bytes lib globals false
                     vertices normals faces)
            = trace (build_mesh false vertices normals faces)) as ->.
    { rewrite encode_passed, trace_bind by done.
      rewrite build_mesh_aborts by done. apply app_nil_r. }
    destruct (building_calls _
                (build_mesh_building false vertices normals faces))
      as (-> & _ & ->).
    repeat split. intros buf. rewrite Hcall. discriminate.
Qed.

(** X5 — What the builder builds.  When no assertion fails, the builder
    returns a mesh with as many points as the vertex array has rows; a
    position attribute, identity mapped, in which point [i] reads as row
    [i] of the vertex array; a normal attribute of the same kind for the
    normal array when it has rows, and no normal attribute when it has
    none; and the faces array as its face list. *)
Theorem build_mesh_contract vertices normals faces :
  assertions_hold NDEBUG vertices faces →
  ∃ mesh position_att,
    result (build_mesh NDEBUG vertices normals faces) = Returned mesh ∧
    draco.num_points mesh = length vertices ∧
    draco.mesh_faces mesh = faces ∧
    draco.GetNamedAttribute draco.POSITION mesh = Some position_att ∧
    draco.indices_map position_att = None ∧
    (∀ i, draco.ConvertValue position_att
            (draco.mapped_index position_att i) = vertices !! i) ∧
    match draco.GetNamedAttribute draco.NORMAL mesh with
    | Some normal_att =>
        (0 < length normals)%nat ∧
        draco.indices_map normal_att = None ∧
        ∀ i, draco.ConvertValue normal_att
               (draco.mapped_index normal_att i) = normals !! i
    | None => normals = []
    end.
Proof.
  intros Hassert.
  exists (built_mesh vertices normals faces),
    (float_attribute draco.POSITION vertices).
  rewrite build_mesh_run by done.
  split; [reflexivity|]. split; [reflexivity|]. split; [reflexivity|].
  split; [apply built_mesh_position|]. split; [reflexivity|].
  split; [apply float_attribute_value|].
  rewrite built_mesh_normal.
  destruct normals as [|n0 rest]; [reflexivity|].
  cbn [length Nat.ltb Nat.leb]. split; [lia|]. split; [reflexivity|].
  apply float_attribute_value.
Qed.

(** X7 — Vertices without faces are dropped.  Whatever the vertices and the
    normals, encoding them with an empty faces array and decoding the
    result gives three empty arrays, and neither call touches Draco. *)
Theorem no_faces_round_trip vertices normals :
  ∃ buf,
    encode_faces_to_drc_bytes lib globals NDEBUG vertices normals [] =
      ([], Returned buf) ∧
    decode_drc_bytes_to_faces lib buf = ([], Returned ([], [], [])).
Proof. exists []. split; [apply encode_empty|apply decode_empty]. Qed.

End EncodeMore.

(** ** The round trip with normals *)

Section RoundTripNormals.

Context {float : Type}.

Variable lib : draco.Library float.
Variable globals : Globals.
Variable NDEBUG : bool.

Implicit Types (vertices : vertices_array_t float).
Implicit Types (normals : normals_array_t float).
Implicit Types (faces : faces_array_t).

Lemma built_mesh_normal_corners vertices normals faces :
  (0 < length normals)%nat →
  corner_values draco.NORMAL (built_mesh vertices normals faces) =
  Some (corner_rows normals faces).
Proof.
  intros Hn. unfold corner_values. rewrite built_mesh_normal.
  apply Nat.ltb_lt in Hn. rewrite Hn. simpl. f_equal.
  unfold corner_rows. apply list_fmap_ext. intros _ i _.
  unfold row. destruct (i <? 0); [reflexivity|].
  apply float_attribute_value.
Qed.

(** The rows extracted from an attribute describe the corners the mesh has
    for that attribute. *)
Lemma extracted_corners_of t (mesh : draco.Mesh float) att
    (rows : list (float * float * float)) :
  draco.GetNamedAttribute t mesh = Some att →
  Some <$> rows = point_values att (draco.num_points mesh) →
  faces_in_range mesh →
  corner_values t mesh = Some (corner_rows rows (draco.mesh_faces mesh)).
Proof.
  intros Hatt Hrows Hrange. unfold corner_values. rewrite Hatt. simpl. f_equal.
  unfold corner_rows. apply Forall_fmap_ext_1.
  eapply Forall_impl; [exact Hrange|]. intros i Hi. simpl in Hi.
  rewrite (extracted_rows att _ rows i Hrows Hi).
  destruct (i <? 0) eqn:Hneg; [apply Z.ltb_lt in Hneg; lia|reflexivity].
Qed.

(** Points that all differ in position or normal give pairs of rows that
    all differ. *)
Lemma distinct_points_rows (mesh : draco.Mesh float) pa na
    (vs ns : list (float * float * float)) :
  draco.GetNamedAttribute draco.POSITION mesh = Some pa →
  draco.GetNamedAttribute draco.NORMAL mesh = Some na →
  Some <$> vs = point_values pa (draco.num_points mesh) →
  Some <$> ns = point_values na (draco.num_points mesh) →
  distinct_points mesh →
  NoDup (zip vs ns).
Proof.
  intros Hpa Hna Hvs Hns Hdistinct. unfold distinct_points in Hdistinct.
  apply (NoDup_fmap_1 (λ p, (Some (fst p), Some (snd p)))).
  erewrite (list_eq (_ <$> zip vs ns)); [exact Hdistinct|].
  assert (length vs = draco.num_points mesh) as Hlv.
  { apply (f_equal length) in Hvs.
    by rewrite length_fmap, point_values_length in Hvs. }
  assert (length ns = draco.num_points mesh) as Hln.
  { apply (f_equal length) in Hns.
    by rewrite length_fmap, point_values_length in Hns. }
  intros i. rewrite !list_lookup_fmap.
  destruct (decide (i < draco.num_points mesh)%nat) as [Hi|Hi].
  - rewrite lookup_seq_lt by done. simpl.
    unfold point_data. rewrite Hpa, Hna. simpl.
    assert ((Some <$> vs) !! i = Some (point_value pa i)) as Hv
      by (rewrite Hvs; by apply point_values_lookup).
    assert ((Some <$> ns) !! i = Some (point_value na i)) as Hn
      by (rewrite Hns; by apply point_values_lookup).
    rewrite list_lookup_fmap in Hv, Hn.
    destruct (vs !! i) as [x|] eqn:Hx; [|discriminate].
    destruct (ns !! i) as [y|] eqn:Hy; [|discriminate].
    simpl in Hv, Hn.
    assert (zip vs ns !! i = Some (x, y)) as ->
      by (apply lookup_zip_with_Some; eauto).
    simpl. congruence.
  - rewrite lookup_seq_ge by lia.
    rewrite (lookup_ge_None_2 (zip vs ns)); [reflexivity|].
    rewrite length_zip. lia.
Qed.

(** Arrays that describe the same corners, the second pair without a
    repeated pair of rows: corners that shared a row in the first share a
    row in the second. *)
Lemma shared_points_stay_shared (vs ns vs' ns' : list (float * float * float))
    faces faces' :
  corner_rows vs' faces' = corner_rows vs faces →
  corner_rows ns' faces' = corner_rows ns faces →
  Forall is_Some (corner_rows vs' faces') →
  Forall is_Some (corner_rows ns' faces') →
  NoDup (zip vs' ns') →
  ∀ a b,
    elements faces !! a = elements faces !! b →
    elements faces' !! a = elements faces' !! b.
Proof.
  intros Hv Hn Hvsome Hnsome Hnd a b Hab.
  assert (length (elements faces') = length (elements faces)) as Hlen.
  { apply (f_equal length) in Hv. unfold corner_rows in Hv.
    by rewrite !length_fmap in Hv. }
  assert (∀ c, corner_rows vs' faces' !! c = corner_rows vs faces !! c)
    as Hvat by (intros c; by rewrite Hv).
  assert (∀ c, corner_rows ns' faces' !! c = corner_rows ns faces !! c)
    as Hnat by (intros c; by rewrite Hn).
  unfold corner_rows in Hvat, Hnat.
  setoid_rewrite list_lookup_fmap in Hvat.
  setoid_rewrite list_lookup_fmap in Hnat.
  destruct (elements faces !! a) as [x|] eqn:Ha.
  - symmetry in Hab.
    destruct (elements faces' !! a) as [ia|] eqn:Ha';
      [|apply lookup_ge_None in Ha'; apply lookup_lt_Some in Ha; lia].
    destruct (elements faces' !! b) as [ib|] eqn:Hb';
      [|apply lookup_ge_None in Hb'; apply lookup_lt_Some in Hab; lia].
    pose proof (Hvat a) as Hva. pose proof (Hvat b) as Hvb.
    pose proof (Hnat a) as Hna. pose proof (Hnat b) as Hnb.
    rewrite Ha, Ha' in Hva, Hna. rewrite Hab, Hb' in Hvb, Hnb.
    simpl in Hva, Hvb, Hna, Hnb.
    assert (is_Some (row vs' ia)) as [v Hrv].
    { rewrite Forall_forall in Hvsome. apply Hvsome.
      unfold corner_rows. apply list_elem_of_fmap. exists ia.
      split; [done|]. by eapply list_elem_of_lookup_2. }
    assert (is_Some (row ns' ia)) as [n Hrn].
    { rewrite Forall_forall in Hnsome. apply Hnsome.
      unfold corner_rows. apply list_elem_of_fmap. exists ia.
      split; [done|]. by eapply list_elem_of_lookup_2. }
    assert (row vs' ib = Some v) as Hrv' by congruence.
    assert (row ns' ib = Some n) as Hrn' by congruence.
    unfold row in Hrv, Hrn, Hrv', Hrn'.
    destruct (ia <? 0) eqn:Hia; [discriminate|].
    destruct (ib <? 0) eqn:Hib; [discriminate|].
    apply Z.ltb_ge in Hia, Hib.
    assert (zip vs' ns' !! Z.to_nat ia = Some (v, n)) as Hza
      by (apply lookup_zip_with_Some; eauto).
    assert (zip vs' ns' !! Z.to_nat ib = Some (v, n)) as Hzb
      by (apply lookup_zip_with_Some; eauto).
    pose proof (NoDup_lookup _ _ _ _ Hnd Hza Hzb). f_equal. lia.
  - symmetry in Hab.
    apply lookup_ge_None in Ha, Hab.
    rewrite !lookup_ge_None_2 by lia. reflexivity.
Qed.

(** X6 — Round trip with normals.  For every consistent input with one
    normal per vertex, and every value of the speed setting,
    [encode_faces_to_drc_bytes] returns a buffer and
    [decode_drc_bytes_to_faces] of that buffer returns arrays that describe
    the same surface: as many faces, at every corner of every face the
    position and the normal the input has there, one normal per returned
    vertex, every face index inside the returned arrays, and no pair of
    position and normal twice (so corners that shared a vertex still share
    one).  The Draco library is asked to meet [round_trip_contract] at the
    mesh the bridge builds. *)
Theorem round_trip_with_normals vertices normals faces :
  faces ≠ [] →
  Forall is_uint32 (elements faces) →
  face_index_in_range vertices faces →
  length normals = length vertices →
  round_trip_contract lib
    (draco.SetSpeedOptions (DRACO_SPEED globals) (DRACO_SPEED globals)
       draco.Encoder_new)
    (built_mesh vertices normals faces) →
  ∃ buf (vertices' normals' : list (float * float * float)) faces',
    result (encode_faces_to_drc_bytes lib globals NDEBUG
              vertices normals faces) = Returned buf ∧
    result (decode_drc_bytes_to_faces lib buf)
      = Returned (vertices', normals', faces') ∧
    length faces' = length faces ∧
    length normals' = length vertices' ∧
    corner_rows vertices' faces' = corner_rows vertices faces ∧
    corner_rows normals' faces' = corner_rows normals faces ∧
    Forall is_Some (corner_rows vertices' faces') ∧
    NoDup (zip vertices' normals') ∧
    (∀ a b, elements faces !! a = elements faces !! b →
            elements faces' !! a = elements faces' !! b).
Proof.
  intros Hne Hu Hr Hcount
    (Hsent & Hbuf & Hkind & received & Hdec & Hrecv & Hfinal
     & Hrp & Hrn & Hrange & Hdistinct).
  set (encoder := draco.SetSpeedOptions _ _ _) in *.
  set (sent := deduplicated lib (built_mesh vertices normals faces)) in *.
  set (buf := snd (draco.EncodeMeshToBuffer lib encoder sent)) in *.
  set (final := deduplicated lib received) in *.
  assert (0 < length normals)%nat as Hsome_normals.
  { rewrite Hcount. destruct vertices; [|simpl; lia].
    pose proof (amax_nonneg faces). unfold face_index_in_range in Hr.
    simpl in Hr. lia. }
  assert (surface final = surface (built_mesh vertices normals faces))
    as Hsurface by congruence.
  unfold surface in Hsurface.
  rewrite built_mesh_corners, built_mesh_normal_corners in Hsurface by done.
  injection Hsurface as Hpos Hnorm.
  destruct (corner_values_is_Some _ _ _ Hpos) as [pa Hpa].
  destruct (corner_values_is_Some _ _ _ Hnorm) as [na Hna].
  destruct (extract_returns final pa Hpa Hrp Hrn) as (vs & ns & Hex & Hvs & Hns).
  rewrite Hna in Hns.
  assert (corner_rows vs (draco.mesh_faces final) = corner_rows vertices faces)
    as Hvcorners.
  { rewrite (extracted_corners_of _ final pa vs Hpa Hvs Hrange) in Hpos.
    congruence. }
  assert (corner_rows ns (draco.mesh_faces final) = corner_rows normals faces)
    as Hncorners.
  { rewrite (extracted_corners_of _ final na ns Hna Hns Hrange) in Hnorm.
    congruence. }
  assert (Forall is_Some (corner_rows vs (draco.mesh_faces final))) as Hvsome.
  { rewrite Hvcorners. by apply valid_corners_exist. }
  assert (Forall is_Some (corner_rows ns (draco.mesh_faces final))) as Hnsome.
  { rewrite Hncorners. apply valid_corners_exist; [done|].
    unfold face_index_in_range in *. by rewrite Hcount. }
  assert (NoDup (zip vs ns)) as Hnd
    by (by eapply distinct_points_rows).
  exists buf, vs, ns, (draco.mesh_faces final).
  split.
  { rewrite encode_run; [reflexivity|done| | |].
    - by apply face_guard_valid.
    - apply normal_guard_false. by right.
    - right. by apply valid_faces_below. }
  split.
  { rewrite (decode_run lib buf received) by done.
    cbn [result snd]. fold final. rewrite Hex. reflexivity. }
  split.
  { apply (f_equal length) in Hvcorners. unfold corner_rows in Hvcorners.
    rewrite !length_fmap, !elements_length in Hvcorners. lia. }
  split.
  { apply (f_equal length) in Hvs, Hns.
    rewrite length_fmap, point_values_length in Hvs, Hns. lia. }
  split; [done|]. split; [done|]. split; [done|]. split; [done|].
  by apply (shared_points_stay_shared vertices normals vs ns).
Qed.

End RoundTripNormals.

(** * The further properties on the reference library *)

(** X1 on the square: its largest face index is 4. *)
Lemma validation_below_INT_MAX_witness :
  (¬ face_index_in_range reference.square reference.square_faces →
   encode_faces_to_drc_bytes reference.lib initial_globals false
     reference.square reference.square_normals reference.square_faces =
   ([], Raised "Face indexes exceed vertices length")) ∧
  (face_index_in_range reference.square reference.square_faces →
   ¬ normal_count_consistent reference.square reference.square_normals →
   encode_faces_to_drc_bytes reference.lib initial_globals false
     reference.square reference.square_normals reference.square_faces =
   ([], Raised "normals array size does not correspond to vertices array size")) ∧
  (face_index_in_range reference.square reference.square_faces →
   normal_count_consistent reference.square reference.square_normals →
   ∃ buf,
     result (encode_faces_to_drc_bytes reference.lib initial_globals false
               reference.square reference.square_normals
               reference.square_faces) = Returned buf).
Proof.
  apply (validation_below_INT_MAX reference.lib initial_globals false
           reference.square reference.square_normals reference.square_faces).
  - discriminate.
  - vm_compute. reflexivity.
Defined.

(** X2 on the square with its normals. *)
Lemma consistent_input_is_encoded_witness :
  encode_faces_to_drc_bytes reference.lib initial_globals false
    reference.square reference.square_normals reference.square_faces =
    (build_log reference.square reference.square_normals reference.square_faces
     ++ [Mesh_DeduplicateAttributeValues; Mesh_DeduplicatePointIds;
         Encoder_SetSpeedOptions 0 0; Encoder_EncodeMeshToBuffer],
     Returned
       (snd (draco.EncodeMeshToBuffer reference.lib
               (draco.SetSpeedOptions 0 0 draco.Encoder_new)
               (deduplicated reference.lib
                  (built_mesh reference.square reference.square_normals
                     reference.square_faces))))).
Proof.
  apply (consistent_input_is_encoded reference.lib initial_globals false
           reference.square reference.square_normals reference.square_faces).
  - discriminate.
  - repeat (constructor; [unfold is_uint32; lia|]). constructor.
  - vm_compute. reflexivity.
  - right. reflexivity.
Defined.

(** X3 on the square with a single normal. *)
Lemma encode_raises_only_validation_witness :
  trace (encode_faces_to_drc_bytes reference.lib initial_globals false
           reference.square [(0, 0, 1065353216)] reference.square_faces) = [] ∧
  reference.square_faces ≠ [] ∧
  (("normals array size does not correspond to vertices array size"
    = "Face indexes exceed vertices length" ∧
    face_guard reference.square reference.square_faces = true) ∨
   ("normals array size does not correspond to vertices array size"
    = "normals array size does not correspond to vertices array size" ∧
    face_guard reference.square reference.square_faces = false ∧
    ¬ normal_count_consistent reference.square [(0, 0, 1065353216)])).
Proof.
  apply (encode_raises_only_validation reference.lib initial_globals false
           reference.square [(0, 0, 1065353216)] reference.square_faces).
  vm_compute. reflexivity.
Defined.

(** X4 on the square and a face that points at row 4294967295. *)
Lemma out_of_range_face_is_never_encoded_witness :
  filter (λ c, is_deduplication c)
    (trace (encode_faces_to_drc_bytes reference.lib initial_globals false
              reference.square [] [(0, 1, 4294967295)])) = [] ∧
  reaches_encoder
    (trace (encode_faces_to_drc_bytes reference.lib initial_globals false
              reference.square [] [(0, 1, 4294967295)])) = false ∧
  ∀ buf,
    result (encode_faces_to_drc_bytes reference.lib initial_globals false
              reference.square [] [(0, 1, 4294967295)]) ≠ Returned buf.
Proof.
  apply (out_of_range_face_is_never_encoded reference.lib initial_globals
           reference.square [] [(0, 1, 4294967295)]).
  apply (bool_decide_unpack _). vm_compute. exact I.
Defined.

(** X5 on the square with its normals. *)
Lemma build_mesh_contract_witness :
  ∃ mesh position_att,
    result (build_mesh false reference.square reference.square_normals
              reference.square_faces) = Returned mesh ∧
    draco.num_points mesh = length reference.square ∧
    draco.mesh_faces mesh = reference.square_faces ∧
    draco.GetNamedAttribute draco.POSITION mesh = Some position_att ∧
    draco.indices_map position_att = None ∧
    (∀ i, draco.ConvertValue position_att
            (draco.mapped_index position_att i) = reference.square !! i) ∧
    match draco.GetNamedAttribute draco.NORMAL mesh with
    | Some normal_att =>
        (0 < length reference.square_normals)%nat ∧
        draco.indices_map normal_att = None ∧
        ∀ i, draco.ConvertValue normal_att
               (draco.mapped_index normal_att i)
             = reference.square_normals !! i
    | None => reference.square_normals = []
    end.
Proof.
  apply (build_mesh_contract false reference.square reference.square_normals
           reference.square_faces).
  right. vm_compute. repeat constructor.
Defined.

(** X6 on the square with its normals, at speed 7. *)
Lemma round_trip_with_normals_witness :
  ∃ buf (vertices' normals' : list (Z * Z * Z)) faces',
    result (encode_faces_to_drc_bytes reference.lib {| DRACO_SPEED := 7 |}
              false reference.square reference.square_normals
              reference.square_faces) = Returned buf ∧
    result (decode_drc_bytes_to_faces reference.lib buf)
      = Returned (vertices', normals', faces') ∧
    length faces' = length reference.square_faces ∧
    length normals' = length vertices' ∧
    corner_rows vertices' faces'
      = corner_rows reference.square reference.square_faces ∧
    corner_rows normals' faces'
      = corner_rows reference.square_normals reference.square_faces ∧
    Forall is_Some (corner_rows vertices' faces') ∧
    NoDup (zip vertices' normals') ∧
    (∀ a b,
       elements reference.square_faces !! a
         = elements reference.square_faces !! b →
       elements faces' !! a = elements faces' !! b).
Proof.
  apply (round_trip_with_normals reference.lib {| DRACO_SPEED := 7 |} false
           reference.square reference.square_normals reference.square_faces).
  - discriminate.
  - repeat (constructor; [unfold is_uint32; lia|]). constructor.
  - vm_compute. reflexivity.
  - reflexivity.
  - unfold round_trip_contract.
    split; [vm_compute; reflexivity|].
    split; [vm_compute; discriminate|].
    split; [vm_compute; reflexivity|].
    eexists. split; [vm_compute; reflexivity|].
    split; [vm_compute; reflexivity|].
    split; [vm_compute; reflexivity|].
    split; [vm_compute; repeat constructor; eexists; reflexivity|].
    split; [vm_compute; repeat constructor; eexists; reflexivity|].
    split; [vm_compute; repeat constructor; discriminate|].
    unfold distinct_points. apply (bool_decide_unpack _). vm_compute. exact I.
Defined.

(** X8 on a triangle that has normals and no positions. *)
Lemma decode_without_positions_witness :
  decode_drc_bytes_to_faces (reference.handing_out reference.normals_only)
    reference.magic =
    ([Decoder_GetEncodedGeometryType; Decoder_DecodeMeshFromBuffer;
      Mesh_DeduplicateAttributeValues; Mesh_DeduplicatePointIds],
     Raised "Draco mesh appears to have no vertices.").
Proof.
  apply (decode_without_positions
           (reference.handing_out reference.normals_only) reference.magic
           reference.normals_only).
  - discriminate.
  - reflexivity.
  - reflexivity.
  - vm_compute. reflexivity.
Defined.

(** X9 on a triangle whose second position does not read. *)
Lemma decode_unreadable_vertex_witness :
  result (decode_drc_bytes_to_faces
            (reference.handing_out reference.torn_positions) reference.magic) =
    Raised ("Error reading vertex " +:+ pretty 1%nat +:+ endl).
Proof.
  eapply (decode_unreadable_vertex
            (reference.handing_out reference.torn_positions) reference.magic
            reference.torn_positions _ 1).
  - discriminate.
  - reflexivity.
  - reflexivity.
  - vm_compute. reflexivity.
  - vm_compute. lia.
  - intros j Hj. assert (j = 0%nat) as -> by lia. vm_compute. by eexists.
  - vm_compute. reflexivity.
Defined.

(** X10 on a triangle whose third normal does not read. *)
Lemma decode_unreadable_normal_witness :
  result (decode_drc_bytes_to_faces
            (reference.handing_out reference.torn_normals) reference.magic) =
    Raised ("Error reading normal for point " +:+ pretty 2%nat +:+ endl).
Proof.
  eapply (decode_unreadable_normal
            (reference.handing_out reference.torn_normals) reference.magic
            reference.torn_normals _ _ 2).
  - discriminate.
  - reflexivity.
  - reflexivity.
  - vm_compute. reflexivity.
  - vm_compute. reflexivity.
  - vm_compute. repeat constructor; eexists; reflexivity.
  - vm_compute. lia.
  - intros j Hj.
    assert (j = 0%nat ∨ j = 1%nat) as [-> | ->] by lia;
      vm_compute; by eexists.
  - vm_compute. reflexivity.
Defined.

(** X11 on the buffer the reference encoder writes for the square with its
    normals. *)
Lemma decode_vertices_and_faces_witness :
  ∃ (vertices normals : list (Z * Z * Z)) faces position_att,
    result (decode_drc_bytes_to_faces reference.lib reference.square_buffer) =
      Returned (vertices, normals, faces) ∧
    draco.GetNamedAttribute draco.POSITION
      (deduplicated reference.lib reference.square_received)
      = Some position_att ∧
    length vertices =
      draco.num_points (deduplicated reference.lib reference.square_received) ∧
    (∀ i, (i < draco.num_points
                 (deduplicated reference.lib reference.square_received))%nat →
          vertices !! i =
          draco.ConvertValue position_att
            (draco.mapped_index position_att i)) ∧
    faces =
      draco.mesh_faces (deduplicated reference.lib reference.square_received) ∧
    shape faces =
      (draco.num_faces (deduplicated reference.lib reference.square_received),
       3%nat).
Proof.
  apply (decode_vertices_and_faces reference.lib reference.square_buffer
           reference.square_received).
  - vm_compute. discriminate.
  - vm_compute. reflexivity.
  - vm_compute. reflexivity.
  - vm_compute. eexists. reflexivity.
  - vm_compute. repeat constructor; eexists; reflexivity.
  - vm_compute. repeat constructor; eexists; reflexivity.
Defined.

(** X13 on the codec that gives up, and a buffer with the header of a
    mesh. *)
Lemma decode_of_null_mesh_witness :
  result (decode_drc_bytes_to_faces reference.failing_lib
            (reference.magic ++ [x01])) = Undefined ∧
  trace (decode_drc_bytes_to_faces reference.failing_lib
           (reference.magic ++ [x01])) =
    [Decoder_GetEncodedGeometryType; Decoder_DecodeMeshFromBuffer] ∧
  (∀ arrays,
     result (decode_drc_bytes_to_faces reference.failing_lib
               (reference.magic ++ [x01])) ≠ Returned arrays) ∧
  (∀ what,
     result (decode_drc_bytes_to_faces reference.failing_lib
               (reference.magic ++ [x01])) ≠ Raised what).
Proof.
  apply (decode_of_null_mesh reference.failing_lib (reference.magic ++ [x01])).
  - discriminate.
  - reflexivity.
  - reflexivity.
Defined.

(** X12 on a buffer that starts with the header of a point cloud. *)
Lemma decode_raises_only_witness :
  reference.point_cloud_buffer ≠ [] ∧
  (("Buffer does not appear to be a mesh file. (Is it a pointcloud?)"
    = "Buffer does not appear to be a mesh file. (Is it a pointcloud?)" ∧
    draco.value (draco.GetEncodedGeometryType reference.lib
                   reference.point_cloud_buffer) ≠ draco.TRIANGULAR_MESH) ∨
   ∃ received,
     draco.value (draco.GetEncodedGeometryType reference.lib
                    reference.point_cloud_buffer) = draco.TRIANGULAR_MESH ∧
     draco.value (draco.DecodeMeshFromBuffer reference.lib
                    reference.point_cloud_buffer) = Some received ∧
     (("Buffer does not appear to be a mesh file. (Is it a pointcloud?)"
       = "Draco mesh appears to have no vertices." ∧
       draco.GetNamedAttribute draco.POSITION
         (deduplicated reference.lib received) = None) ∨
      ∃ k att,
        (k < draco.num_points (deduplicated reference.lib received))%nat ∧
        draco.ConvertValue att (draco.mapped_index att k) = None ∧
        (("Buffer does not appear to be a mesh file. (Is it a pointcloud?)"
          = "Error reading vertex " +:+ pretty k +:+ endl ∧
          draco.GetNamedAttribute draco.POSITION
            (deduplicated reference.lib received) = Some att) ∨
         ("Buffer does not appear to be a mesh file. (Is it a pointcloud?)"
          = "Error reading normal for point " +:+ pretty k +:+ endl ∧
          draco.GetNamedAttribute draco.NORMAL
            (deduplicated reference.lib received) = Some att)))).
Proof.
  apply (decode_raises_only reference.lib reference.point_cloud_buffer).
  vm_compute. reflexivity.
Defined.
